(** * BiometricRegistry: a shallow embedding of contracts/BiometricRegistry.sol

    The contract storage is an explicit [State] record, every external
    function is a computation in a small revert/state/event monad, and a
    transaction either commits its final storage or leaves the storage as
    it was (EVM revert).  Solidity mappings are finite maps read through
    the type's zero value; [uint256] counters use the checked arithmetic of
    Solidity 0.8 (an overflowing [++] panics). *)

From Stdlib Require Import ZArith Lia Bool.
From stdpp Require Import base gmap strings list fin_maps.

Local Open Scope Z_scope.

(** ** Value types *)

Definition bytes32 := Z.
Definition address := Z.
Definition uint256 := Z.
Definition bytes := list Byte.byte.

Definition TWO_256 : Z := Eval cbv in 2 ^ 256.
Definition TWO_160 : Z := Eval cbv in 2 ^ 160.
Definition MAX_UINT256 : Z := Eval cbv in 2 ^ 256 - 1.

Definition is_bytes32 (x : Z) : bool := (0 <=? x) && (x <? TWO_256).
Definition is_uint256 (x : Z) : bool := (0 <=? x) && (x <? TWO_256).
Definition is_address (x : Z) : bool := (0 <=? x) && (x <? TWO_160).

Inductive BiometricType := FACIAL | FINGERPRINT | IRIS | MULTIMODAL.

Record Subject := mkSubject {
  subjectId : bytes32;
  commitmentHash : bytes32;
  delta : bytes;
  templateCID : string;
  biometricType : BiometricType;
  enrolledBy : address;
  enrolledAt : uint256;
  updatedAt : uint256;
  isActive : bool
}.

Record Node := mkNode {
  nodeId : uint256;
  name : string;
  nodeAddress : address;
  isEnrollmentCenter : bool;
  isAuthorized : bool;
  registeredAt : uint256;
  enrollmentCount : uint256
}.

(** The first field is [subjectId] in the source; the projection is renamed
    because [Subject] already owns that name. *)
Record AuthRecord := mkAuthRecord {
  ar_subjectId : bytes32;
  verifier : address;
  success : bool;
  reason : string;
  timestamp : uint256
}.

(** ** Zero values: what a mapping slot that was never written reads as *)

Class Zero (A : Type) := zero : A.

#[export] Instance Zero_bool : Zero bool := false.
#[export] Instance Zero_Z : Zero Z := 0.
#[export] Instance Zero_string : Zero string := EmptyString.
#[export] Instance Zero_list {A} : Zero (list A) := [].
#[export] Instance Zero_BiometricType : Zero BiometricType := FACIAL.
#[export] Instance Zero_Subject : Zero Subject :=
  mkSubject 0 0 [] EmptyString FACIAL 0 0 0 false.
#[export] Instance Zero_Node : Zero Node :=
  mkNode 0 EmptyString 0 false false 0 0.
#[export] Instance Zero_AuthRecord : Zero AuthRecord :=
  mkAuthRecord 0 0 false EmptyString 0.

(** [m.[k]] is the Solidity read [m[k]]. *)
Definition sload `{Countable K} {V} `{Zero V} (m : gmap K V) (k : K) : V :=
  default zero (m !! k).

Notation "m .[ k ]" := (sload m k) (at level 1, left associativity, format "m .[ k ]").

(** ** Storage *)

Record State := mkState {
  _owner : address;
  _subjectCount : uint256;
  _nodeCount : uint256;
  _authRecordCount : uint256;
  _subjects : gmap Z Subject;
  _nodes : gmap Z Node;
  _authRecords : gmap Z AuthRecord;
  _subjectExists : gmap Z bool;
  _nodeEnrollments : gmap Z (list Z);
  _allSubjectIds : list Z;
  _allNodeAddresses : list Z
}.

Definition set_owner (a : address) (s : State) : State :=
  mkState a (_subjectCount s) (_nodeCount s) (_authRecordCount s) (_subjects s)
    (_nodes s) (_authRecords s) (_subjectExists s) (_nodeEnrollments s)
    (_allSubjectIds s) (_allNodeAddresses s).
Definition set_subjectCount (n : uint256) (s : State) : State :=
  mkState (_owner s) n (_nodeCount s) (_authRecordCount s) (_subjects s)
    (_nodes s) (_authRecords s) (_subjectExists s) (_nodeEnrollments s)
    (_allSubjectIds s) (_allNodeAddresses s).
Definition set_nodeCount (n : uint256) (s : State) : State :=
  mkState (_owner s) (_subjectCount s) n (_authRecordCount s) (_subjects s)
    (_nodes s) (_authRecords s) (_subjectExists s) (_nodeEnrollments s)
    (_allSubjectIds s) (_allNodeAddresses s).
Definition set_authRecordCount (n : uint256) (s : State) : State :=
  mkState (_owner s) (_subjectCount s) (_nodeCount s) n (_subjects s)
    (_nodes s) (_authRecords s) (_subjectExists s) (_nodeEnrollments s)
    (_allSubjectIds s) (_allNodeAddresses s).
Definition set_subjects (m : gmap Z Subject) (s : State) : State :=
  mkState (_owner s) (_subjectCount s) (_nodeCount s) (_authRecordCount s) m
    (_nodes s) (_authRecords s) (_subjectExists s) (_nodeEnrollments s)
    (_allSubjectIds s) (_allNodeAddresses s).
Definition set_nodes (m : gmap Z Node) (s : State) : State :=
  mkState (_owner s) (_subjectCount s) (_nodeCount s) (_authRecordCount s)
    (_subjects s) m (_authRecords s) (_subjectExists s) (_nodeEnrollments s)
    (_allSubjectIds s) (_allNodeAddresses s).
Definition set_authRecords (m : gmap Z AuthRecord) (s : State) : State :=
  mkState (_owner s) (_subjectCount s) (_nodeCount s) (_authRecordCount s)
    (_subjects s) (_nodes s) m (_subjectExists s) (_nodeEnrollments s)
    (_allSubjectIds s) (_allNodeAddresses s).
Definition set_subjectExists (m : gmap Z bool) (s : State) : State :=
  mkState (_owner s) (_subjectCount s) (_nodeCount s) (_authRecordCount s)
    (_subjects s) (_nodes s) (_authRecords s) m (_nodeEnrollments s)
    (_allSubjectIds s) (_allNodeAddresses s).
Definition set_nodeEnrollments (m : gmap Z (list Z)) (s : State) : State :=
  mkState (_owner s) (_subjectCount s) (_nodeCount s) (_authRecordCount s)
    (_subjects s) (_nodes s) (_authRecords s) (_subjectExists s) m
    (_allSubjectIds s) (_allNodeAddresses s).
Definition set_allSubjectIds (l : list Z) (s : State) : State :=
  mkState (_owner s) (_subjectCount s) (_nodeCount s) (_authRecordCount s)
    (_subjects s) (_nodes s) (_authRecords s) (_subjectExists s)
    (_nodeEnrollments s) l (_allNodeAddresses s).
Definition set_allNodeAddresses (l : list Z) (s : State) : State :=
  mkState (_owner s) (_subjectCount s) (_nodeCount s) (_authRecordCount s)
    (_subjects s) (_nodes s) (_authRecords s) (_subjectExists s)
    (_nodeEnrollments s) (_allSubjectIds s) l.

(** Field assignments on storage structs. *)
Definition with_commitment (h : bytes32) (d : bytes) (cid : string) (t : uint256)
    (s : Subject) : Subject :=
  mkSubject (subjectId s) h d cid (biometricType s) (enrolledBy s)
    (enrolledAt s) t (isActive s).
Definition with_isActive (b : bool) (s : Subject) : Subject :=
  mkSubject (subjectId s) (commitmentHash s) (delta s) (templateCID s)
    (biometricType s) (enrolledBy s) (enrolledAt s) (updatedAt s) b.
Definition with_updatedAt (t : uint256) (s : Subject) : Subject :=
  mkSubject (subjectId s) (commitmentHash s) (delta s) (templateCID s)
    (biometricType s) (enrolledBy s) (enrolledAt s) t (isActive s).
Definition with_nodeAddress (a : address) (n : Node) : Node :=
  mkNode (nodeId n) (name n) a (isEnrollmentCenter n) (isAuthorized n)
    (registeredAt n) (enrollmentCount n).
Definition with_isAuthorized (b : bool) (n : Node) : Node :=
  mkNode (nodeId n) (name n) (nodeAddress n) (isEnrollmentCenter n) b
    (registeredAt n) (enrollmentCount n).
Definition with_enrollmentCount (c : uint256) (n : Node) : Node :=
  mkNode (nodeId n) (name n) (nodeAddress n) (isEnrollmentCenter n)
    (isAuthorized n) (registeredAt n) c.

(** ** Events *)

Inductive Event :=
| SubjectEnrolled (subjectId : bytes32) (enrolledBy : address)
    (biometricType : BiometricType) (timestamp : uint256)
| SubjectUpdated (subjectId : bytes32) (updatedBy : address) (timestamp : uint256)
| SubjectDeactivated (subjectId : bytes32) (deactivatedBy : address) (timestamp : uint256)
| SubjectReactivated (subjectId : bytes32) (reactivatedBy : address) (timestamp : uint256)
| NodeRegistered (nodeId : uint256) (nodeAddress : address) (name : string)
    (isEnrollmentCenter : bool) (timestamp : uint256)
| NodeStatusChanged (nodeAddress : address) (isAuthorized : bool) (timestamp : uint256)
| AuthenticationLogged (subjectId : bytes32) (verifier : address) (success : bool)
    (timestamp : uint256)
| OwnershipTransferred (previousOwner newOwner : address).

(** ** The execution monad *)

Record Env := mkEnv { msg_sender : address; block_timestamp : uint256 }.

Inductive Error :=
| Revert (message : string)
| Panic (code : Z).

Inductive Result (A : Type) :=
| Ok (a : A)
| Err (e : Error).
Arguments Ok {A} a.
Arguments Err {A} e.

Definition Contract (A : Type) : Type :=
  Env -> State -> Result (A * State * list Event).

Definition ret {A} (a : A) : Contract A := fun _ st => Ok (a, st, []).

Definition bind {A B} (m : Contract A) (f : A -> Contract B) : Contract B :=
  fun env st =>
    match m env st with
    | Err e => Err e
    | Ok (a, st1, ev1) =>
        match f a env st1 with
        | Err e => Err e
        | Ok (b, st2, ev2) => Ok (b, st2, ev1 ++ ev2)
        end
    end.

#[export] Instance Contract_ret : MRet Contract := @ret.
#[export] Instance Contract_bind : MBind Contract := fun A B f m => bind m f.

Definition require (b : bool) (message : string) : Contract unit :=
  fun _ st => if b then Ok (tt, st, []) else Err (Revert message).
Definition storage : Contract State := fun _ st => Ok (st, st, []).
Definition sstore (f : State -> State) : Contract unit :=
  fun _ st => Ok (tt, f st, []).
Definition sender : Contract address := fun env st => Ok (msg_sender env, st, []).
Definition now : Contract uint256 := fun env st => Ok (block_timestamp env, st, []).
Definition emit (e : Event) : Contract unit := fun _ st => Ok (tt, st, [e]).

(** Checked [x++] of Solidity 0.8: arithmetic overflow is Panic(0x11). *)
Definition checked_inc (x : uint256) : Contract uint256 :=
  fun _ st => if x <? MAX_UINT256 then Ok (x + 1, st, []) else Err (Panic 17).

(** ** Modifiers *)

Definition onlyOwner : Contract unit :=
  caller ← sender; st ← storage;
  require (caller =? _owner st) "BiometricRegistry: caller is not owner".

Definition onlyAuthorizedNode : Contract unit :=
  caller ← sender; st ← storage;
  require (isAuthorized (_nodes st).[caller]) "BiometricRegistry: not authorized node".

Definition onlyEnrollmentCenter : Contract unit :=
  caller ← sender; st ← storage;
  require (isAuthorized (_nodes st).[caller] && isEnrollmentCenter (_nodes st).[caller])
    "BiometricRegistry: not an enrollment center".

Definition subjectMustExist (subjectId : bytes32) : Contract unit :=
  st ← storage;
  require (_subjectExists st).[subjectId] "BiometricRegistry: subject not found".

Definition subjectMustBeActive (subjectId : bytes32) : Contract unit :=
  st ← storage;
  require (isActive (_subjects st).[subjectId]) "BiometricRegistry: subject not active".

(** ** Constructor *)

Definition empty_storage : State := mkState 0 0 0 0 ∅ ∅ ∅ ∅ ∅ [] [].

Definition constructor : Contract unit :=
  caller ← sender; t ← now;
  sstore (set_owner caller);;
  sstore (set_nodeCount 1);;
  sstore (fun st => set_nodes
    (<[caller := mkNode 1 "Main Enrollment Center" caller true true t 0]> (_nodes st)) st);;
  sstore (fun st => set_allNodeAddresses (_allNodeAddresses st ++ [caller]) st);;
  emit (NodeRegistered 1 caller "Main Enrollment Center" true t).

(** ** Subject management *)

Definition enrollSubject (subjectId commitmentHash : bytes32) (delta : bytes)
    (templateCID : string) (biometricType : BiometricType) : Contract unit :=
  onlyEnrollmentCenter;;
  require (negb (subjectId =? 0)) "BiometricRegistry: invalid subject ID";;
  require (negb (commitmentHash =? 0)) "BiometricRegistry: invalid commitment hash";;
  st ← storage;
  require (negb (_subjectExists st).[subjectId]) "BiometricRegistry: subject already exists";;
  caller ← sender; t ← now;
  sstore (fun st => set_subjects
    (<[subjectId := mkSubject subjectId commitmentHash delta templateCID biometricType
                      caller t t true]> (_subjects st)) st);;
  sstore (fun st => set_subjectExists (<[subjectId := true]> (_subjectExists st)) st);;
  sstore (fun st => set_allSubjectIds (_allSubjectIds st ++ [subjectId]) st);;
  sstore (fun st => set_nodeEnrollments
    (<[caller := (_nodeEnrollments st).[caller] ++ [subjectId]]> (_nodeEnrollments st)) st);;
  st ← storage;
  c ← checked_inc (enrollmentCount (_nodes st).[caller]);
  sstore (fun st => set_nodes
    (<[caller := with_enrollmentCount c (_nodes st).[caller]]> (_nodes st)) st);;
  st ← storage;
  c ← checked_inc (_subjectCount st);
  sstore (set_subjectCount c);;
  emit (SubjectEnrolled subjectId caller biometricType t).

Definition updateSubject (subjectId commitmentHash : bytes32) (delta : bytes)
    (templateCID : string) : Contract unit :=
  onlyEnrollmentCenter;;
  subjectMustExist subjectId;;
  subjectMustBeActive subjectId;;
  require (negb (commitmentHash =? 0)) "BiometricRegistry: invalid commitment hash";;
  caller ← sender; t ← now;
  sstore (fun st => set_subjects
    (<[subjectId := with_commitment commitmentHash delta templateCID t
                      (_subjects st).[subjectId]]> (_subjects st)) st);;
  emit (SubjectUpdated subjectId caller t).

Definition deactivateSubject (subjectId : bytes32) : Contract unit :=
  onlyEnrollmentCenter;;
  subjectMustExist subjectId;;
  caller ← sender; t ← now;
  sstore (fun st => set_subjects
    (<[subjectId := with_isActive false (_subjects st).[subjectId]]> (_subjects st)) st);;
  sstore (fun st => set_subjects
    (<[subjectId := with_updatedAt t (_subjects st).[subjectId]]> (_subjects st)) st);;
  emit (SubjectDeactivated subjectId caller t).

Definition reactivateSubject (subjectId : bytes32) : Contract unit :=
  onlyEnrollmentCenter;;
  subjectMustExist subjectId;;
  caller ← sender; t ← now;
  sstore (fun st => set_subjects
    (<[subjectId := with_isActive true (_subjects st).[subjectId]]> (_subjects st)) st);;
  sstore (fun st => set_subjects
    (<[subjectId := with_updatedAt t (_subjects st).[subjectId]]> (_subjects st)) st);;
  emit (SubjectReactivated subjectId caller t).

Definition getSubject (subjectId : bytes32)
    : Contract (bytes32 * bytes32 * bytes * string * BiometricType * uint256) :=
  onlyAuthorizedNode;;
  subjectMustExist subjectId;;
  subjectMustBeActive subjectId;;
  st ← storage;
  let '(mkSubject id h d cid bt _ at_ _ _) := (_subjects st).[subjectId] in
  mret (id, h, d, cid, bt, at_).

Definition checkSubjectStatus (subjectId : bytes32) : Contract (bool * bool) :=
  st ← storage;
  mret ((_subjectExists st).[subjectId], isActive (_subjects st).[subjectId]).

Definition verifyCommitment (subjectId providedHash : bytes32) : Contract bool :=
  onlyAuthorizedNode;;
  subjectMustExist subjectId;;
  subjectMustBeActive subjectId;;
  st ← storage;
  mret (commitmentHash (_subjects st).[subjectId] =? providedHash).

(** ** Authentication logging *)

Definition logAuthentication (subjectId : bytes32) (success : bool) (reason : string)
    : Contract unit :=
  onlyAuthorizedNode;;
  st ← storage;
  c ← checked_inc (_authRecordCount st);
  sstore (set_authRecordCount c);;
  caller ← sender; t ← now;
  sstore (fun st => set_authRecords
    (<[_authRecordCount st := mkAuthRecord subjectId caller success reason t]>
       (_authRecords st)) st);;
  emit (AuthenticationLogged subjectId caller success t).

Definition getAuthRecord (recordId : uint256)
    : Contract (bytes32 * address * bool * string * uint256) :=
  onlyAuthorizedNode;;
  st ← storage;
  let record := (_authRecords st).[recordId] in
  mret (ar_subjectId record, verifier record, success record,
        reason record, timestamp record).

(** ** Node management *)

Definition registerNode (nodeAddress : address) (name : string)
    (isEnrollmentCenter : bool) : Contract unit :=
  onlyEnrollmentCenter;;
  require (negb (nodeAddress =? 0)) "BiometricRegistry: invalid address";;
  st ← storage;
  require (match (_nodes st).[nodeAddress] with
           | mkNode _ _ a _ _ _ _ => a =? 0
           end) "BiometricRegistry: node exists";;
  c ← checked_inc (_nodeCount st);
  sstore (set_nodeCount c);;
  t ← now;
  sstore (fun st => set_nodes
    (<[nodeAddress := mkNode (_nodeCount st) name nodeAddress isEnrollmentCenter
                        true t 0]> (_nodes st)) st);;
  sstore (fun st => set_allNodeAddresses (_allNodeAddresses st ++ [nodeAddress]) st);;
  st ← storage;
  emit (NodeRegistered (_nodeCount st) nodeAddress name isEnrollmentCenter t).

Definition setNodeAuthorization (addr : address) (authorized : bool) : Contract unit :=
  onlyEnrollmentCenter;;
  st ← storage;
  require (negb (nodeAddress (_nodes st).[addr] =? 0)) "BiometricRegistry: node not found";;
  require (negb (addr =? _owner st)) "BiometricRegistry: cannot modify owner";;
  sstore (fun st => set_nodes
    (<[addr := with_isAuthorized authorized (_nodes st).[addr]]> (_nodes st)) st);;
  t ← now;
  emit (NodeStatusChanged addr authorized t).

Definition getNode (addr : address)
    : Contract (uint256 * string * bool * bool * uint256 * uint256) :=
  st ← storage;
  let node := (_nodes st).[addr] in
  mret (nodeId node, name node, isEnrollmentCenter node, isAuthorized node,
        registeredAt node, enrollmentCount node).

(** ** Admin functions *)

Definition transferOwnership (newOwner : address) : Contract unit :=
  onlyOwner;;
  require (negb (newOwner =? 0)) "BiometricRegistry: invalid new owner";;
  st ← storage;
  let previousOwner := _owner st in
  sstore (set_owner newOwner);;
  sstore (fun st => set_nodes
    (<[newOwner := (_nodes st).[previousOwner]]> (_nodes st)) st);;
  sstore (fun st => set_nodes
    (<[newOwner := with_nodeAddress newOwner (_nodes st).[newOwner]]> (_nodes st)) st);;
  sstore (fun st => set_nodes (delete previousOwner (_nodes st)) st);;
  sstore (fun st => set_allNodeAddresses (_allNodeAddresses st ++ [newOwner]) st);;
  emit (OwnershipTransferred previousOwner newOwner).

(** ** View functions *)

Module View.
Definition owner : Contract address := st ← storage; mret (_owner st).
Definition totalSubjects : Contract uint256 := st ← storage; mret (_subjectCount st).
Definition totalNodes : Contract uint256 := st ← storage; mret (_nodeCount st).
Definition totalAuthRecords : Contract uint256 :=
  st ← storage; mret (_authRecordCount st).
Definition isAuthorizedNode (addr : address) : Contract bool :=
  st ← storage; mret (isAuthorized (_nodes st).[addr]).
Definition isEnrollmentCenter (addr : address) : Contract bool :=
  st ← storage;
  let '(mkNode _ _ _ isEC authorized _ _) := (_nodes st).[addr] in
  mret (isEC && authorized).
Definition getNodeEnrollments (addr : address) : Contract (list bytes32) :=
  onlyAuthorizedNode;;
  st ← storage; mret (_nodeEnrollments st).[addr].
End View.

(** ** Transactions

    A transaction runs one external function.  When it reverts, the storage
    is the one before the call and no event is logged. *)

Definition commit {A} (m : Contract A) (env : Env) (st : State) : State :=
  match m env st with
  | Ok (_, st', _) => st'
  | Err _ => st
  end.

Definition deploy (env : Env) : State := commit constructor env empty_storage.

(** The state-changing entry points (the view functions never write). *)
Inductive Call :=
| EnrollSubject (subjectId commitmentHash : bytes32) (delta : bytes)
    (templateCID : string) (biometricType : BiometricType)
| UpdateSubject (subjectId commitmentHash : bytes32) (delta : bytes)
    (templateCID : string)
| DeactivateSubject (subjectId : bytes32)
| ReactivateSubject (subjectId : bytes32)
| LogAuthentication (subjectId : bytes32) (success : bool) (reason : string)
| RegisterNode (nodeAddress : address) (name : string) (isEnrollmentCenter : bool)
| SetNodeAuthorization (nodeAddress : address) (authorized : bool)
| TransferOwnership (newOwner : address).

Definition dispatch (c : Call) : Contract unit :=
  match c with
  | EnrollSubject id h d cid bt => enrollSubject id h d cid bt
  | UpdateSubject id h d cid => updateSubject id h d cid
  | DeactivateSubject id => deactivateSubject id
  | ReactivateSubject id => reactivateSubject id
  | LogAuthentication id ok why => logAuthentication id ok why
  | RegisterNode a n ec => registerNode a n ec
  | SetNodeAuthorization a b => setNodeAuthorization a b
  | TransferOwnership a => transferOwnership a
  end.

(** Arguments and environment as the ABI delivers them: within their types. *)
Definition wf_env (env : Env) : bool :=
  is_address (msg_sender env) && is_uint256 (block_timestamp env).

Definition wf_call (c : Call) : bool :=
  match c with
  | EnrollSubject id h _ _ _ => is_bytes32 id && is_bytes32 h
  | UpdateSubject id h _ _ => is_bytes32 id && is_bytes32 h
  | DeactivateSubject id => is_bytes32 id
  | ReactivateSubject id => is_bytes32 id
  | LogAuthentication id _ _ => is_bytes32 id
  | RegisterNode a _ _ => is_address a
  | SetNodeAuthorization a _ => is_address a
  | TransferOwnership a => is_address a
  end.

Definition Tx : Type := Env * Call.

Definition wf_tx (tx : Tx) : bool := wf_env tx.1 && wf_call tx.2.

Definition apply_tx (st : State) (tx : Tx) : State := commit (dispatch tx.2) tx.1 st.

(** The storage after deployment by [deployer] followed by the transactions [txs]. *)
Definition run (deployer : Env) (txs : list Tx) : State :=
  fold_left apply_tx txs (deploy deployer).

Definition wf_history (deployer : Env) (txs : list Tx) : bool :=
  wf_env deployer && forallb wf_tx txs.

(** ** Error taxonomy

    The contract reverts with message strings; the specification names the
    kinds of failure.  [error_kind] reads each message of the source as the
    kind it stands for. *)

Inductive ErrorKind :=
| Unauthorized | InvalidArgument | DuplicateSubject | DuplicateNode
| NotFound | NotActive | ArithmeticPanic | Unclassified.

Definition error_kind (e : Error) : ErrorKind :=
  match e with
  | Panic _ => ArithmeticPanic
  | Revert m =>
      if String.eqb m "BiometricRegistry: caller is not owner" then Unauthorized
      else if String.eqb m "BiometricRegistry: not authorized node" then Unauthorized
      else if String.eqb m "BiometricRegistry: not an enrollment center" then Unauthorized
      else if String.eqb m "BiometricRegistry: invalid subject ID" then InvalidArgument
      else if String.eqb m "BiometricRegistry: invalid commitment hash" then InvalidArgument
      else if String.eqb m "BiometricRegistry: invalid address" then InvalidArgument
      else if String.eqb m "BiometricRegistry: invalid new owner" then InvalidArgument
      else if String.eqb m "BiometricRegistry: subject already exists" then DuplicateSubject
      else if String.eqb m "BiometricRegistry: node exists" then DuplicateNode
      else if String.eqb m "BiometricRegistry: subject not found" then NotFound
      else if String.eqb m "BiometricRegistry: node not found" then NotFound
      else if String.eqb m "BiometricRegistry: subject not active" then NotActive
      else Unclassified
  end.

(** [fails_with k r]: the call reverted and its error is of kind [k]. *)
Definition fails_with {A} (k : ErrorKind) (r : Result A) : Prop :=
  match r with
  | Ok _ => False
  | Err e => error_kind e = k
  end.

Definition succeeds {A} (r : Result A) : Prop :=
  match r with
  | Ok _ => True
  | Err _ => False
  end.

(** The two capabilities of the role directory. *)
Definition authorized (st : State) (a : address) : bool :=
  isAuthorized (_nodes st).[a].
Definition canEnroll (st : State) (a : address) : bool :=
  isAuthorized (_nodes st).[a] && isEnrollmentCenter (_nodes st).[a].

(** ** The net effect of each function

    The storage a successful call commits, written in one piece. *)

Definition enrolled (id h : bytes32) (d : bytes) (cid : string) (bt : BiometricType)
    (env : Env) (st : State) : State :=
  let caller := msg_sender env in
  let t := block_timestamp env in
  mkState (_owner st) (_subjectCount st + 1) (_nodeCount st) (_authRecordCount st)
    (<[id := mkSubject id h d cid bt caller t t true]> (_subjects st))
    (<[caller := with_enrollmentCount (enrollmentCount (_nodes st).[caller] + 1)
                   (_nodes st).[caller]]> (_nodes st))
    (_authRecords st)
    (<[id := true]> (_subjectExists st))
    (<[caller := (_nodeEnrollments st).[caller] ++ [id]]> (_nodeEnrollments st))
    (_allSubjectIds st ++ [id])
    (_allNodeAddresses st).

Definition updated (id h : bytes32) (d : bytes) (cid : string) (env : Env)
    (st : State) : State :=
  set_subjects
    (<[id := with_commitment h d cid (block_timestamp env) (_subjects st).[id]]>
       (_subjects st)) st.

(** [_subjects[id].isActive = b; _subjects[id].updatedAt = block.timestamp]. *)
Definition toggled (b : bool) (id : bytes32) (env : Env) (st : State) : State :=
  set_subjects
    (<[id := with_updatedAt (block_timestamp env)
               (with_isActive b (_subjects st).[id])]> (_subjects st)) st.

Definition logged (id : bytes32) (ok : bool) (why : string) (env : Env)
    (st : State) : State :=
  let n := _authRecordCount st + 1 in
  set_authRecords
    (<[n := mkAuthRecord id (msg_sender env) ok why (block_timestamp env)]>
       (_authRecords st))
    (set_authRecordCount n st).

Definition registered (a : address) (nm : string) (ec : bool) (env : Env)
    (st : State) : State :=
  let n := _nodeCount st + 1 in
  set_allNodeAddresses (_allNodeAddresses st ++ [a])
    (set_nodes (<[a := mkNode n nm a ec true (block_timestamp env) 0]> (_nodes st))
       (set_nodeCount n st)).

Definition reauthorized (a : address) (b : bool) (st : State) : State :=
  set_nodes (<[a := with_isAuthorized b (_nodes st).[a]]> (_nodes st)) st.

(** The net effect of the three writes to [_nodes] in [transferOwnership]. *)
Definition transferred (newOwner : address) (st : State) : State :=
  set_allNodeAddresses (_allNodeAddresses st ++ [newOwner])
    (set_nodes
       (delete (_owner st)
          (<[newOwner := with_nodeAddress newOwner (_nodes st).[_owner st]]>
             (_nodes st)))
       (set_owner newOwner st)).

(** ** Invariant of the reachable storage *)

Record Inv (st : State) : Prop := mkInv {
  inv_ids_nodup : NoDup (_allSubjectIds st);
  inv_ids_exist : forall x, x ∈ _allSubjectIds st <-> (_subjectExists st).[x] = true;
  inv_ids_range : forall x, x ∈ _allSubjectIds st -> 1 <= x < TWO_256;
  inv_count : _subjectCount st = Z.of_nat (length (_allSubjectIds st));
  inv_enrollments : forall a, 0 <= enrollmentCount (_nodes st).[a] <= _subjectCount st;
  inv_auth_count : 0 <= _authRecordCount st;
  inv_auth_dom : forall k, is_Some (_authRecords st !! k) <-> 1 <= k <= _authRecordCount st
}.

(** ** Histories in which the owner never transfers to itself *)

Fixpoint transfers_to_others (st : State) (txs : list Tx) : bool :=
  match txs with
  | [] => true
  | tx :: rest =>
      match tx.2 with
      | TransferOwnership a => negb (a =? _owner st) || negb (msg_sender tx.1 =? _owner st)
      | _ => true
      end && transfers_to_others (apply_tx st tx) rest
  end.

Definition owner_is_center (st : State) : Prop :=
  canEnroll st (_owner st) = true /\ nodeAddress (_nodes st).[_owner st] = _owner st.

(** The same storage with subject [id] recorded as enrolled by [who]. *)
Definition with_enrolledBy (who : address) (s : Subject) : Subject :=
  mkSubject (subjectId s) (commitmentHash s) (delta s) (templateCID s)
    (biometricType s) who (enrolledAt s) (updatedAt s) (isActive s).

Definition credited_to (who : address) (id : bytes32) (st : State) : State :=
  set_subjects (<[id := with_enrolledBy who (_subjects st).[id]]> (_subjects st)) st.

(** ** The accounts and transactions of the truffle test suite *)

Module Scenario.
Definition owner : Env := mkEnv 1 1000.
Definition user1 : Env := mkEnv 4 1000.
Definition authCenter : Env := mkEnv 3 1000.
Definition subject1 : Call := EnrollSubject 11 21 [] "QmTestHash123" FACIAL.
Definition withAuthCenter : list Tx :=
  [(owner, RegisterNode 3 "Auth Center" false); (owner, subject1)].
End Scenario.

(** ** Well-formedness of the subject ledger and of the role directory *)

(** Subject records agree with their keys and with the per-node index. *)
Record LedgerInv (st : State) : Prop := mkLedgerInv {
  li_key : forall id, (_subjectExists st).[id] = true ->
    subjectId (_subjects st).[id] = id /\ commitmentHash (_subjects st).[id] <> 0;
  li_absent : forall id, (_subjectExists st).[id] = false ->
    (_subjects st).[id] = zero;
  li_index_sound : forall a id, id ∈ (_nodeEnrollments st).[a] ->
    (_subjectExists st).[id] = true /\ enrolledBy (_subjects st).[id] = a;
  li_index_complete : forall id, (_subjectExists st).[id] = true ->
    id ∈ (_nodeEnrollments st).[enrolledBy (_subjects st).[id]];
  li_index_nodup : forall a, NoDup (_nodeEnrollments st).[a]
}.

#[export] Instance Node_eq_dec : EqDecision Node.
Proof. solve_decision. Defined.

(** Node records carry their own address, are enumerated, and have ids
    within the node counter. *)
Record DirectoryInv (st : State) : Prop := mkDirectoryInv {
  di_address : forall a, (_nodes st).[a] = zero \/ nodeAddress (_nodes st).[a] = a;
  di_listed : forall a, (_nodes st).[a] <> zero -> a ∈ _allNodeAddresses st;
  di_count : 1 <= _nodeCount st;
  di_nodeId : forall a, 0 <= nodeId (_nodes st).[a] <= _nodeCount st
}.

(** The parts of a subject record that say where it came from. *)
Definition provenance (s : Subject) : bytes32 * BiometricType * address * uint256 :=
  (subjectId s, biometricType s, enrolledBy s, enrolledAt s).

(** Two storages that differ at most in the audit log. *)
Definition same_but_audit_log (st st' : State) : Prop :=
  st' = set_authRecords (_authRecords st') (set_authRecordCount (_authRecordCount st') st).

(** The event a successful call logs. *)
Definition event_of (c : Call) (env : Env) (st : State) : Event :=
  match c with
  | EnrollSubject id _ _ _ bt =>
      SubjectEnrolled id (msg_sender env) bt (block_timestamp env)
  | UpdateSubject id _ _ _ => SubjectUpdated id (msg_sender env) (block_timestamp env)
  | DeactivateSubject id =>
      SubjectDeactivated id (msg_sender env) (block_timestamp env)
  | ReactivateSubject id =>
      SubjectReactivated id (msg_sender env) (block_timestamp env)
  | LogAuthentication id ok _ =>
      AuthenticationLogged id (msg_sender env) ok (block_timestamp env)
  | RegisterNode a nm ec =>
      NodeRegistered (_nodeCount st + 1) a nm ec (block_timestamp env)
  | SetNodeAuthorization a b => NodeStatusChanged a b (block_timestamp env)
  | TransferOwnership a => OwnershipTransferred (_owner st) a
  end.

(** * Reasoning principles *)

(** ** Storage reads after writes *)

Section Sload.
Context {V : Type} `{Zero V}.
Implicit Types (m : gmap Z V) (k : Z) (v : V).

Lemma sload_insert_eq m k v : (<[k := v]> m).[k] = v.
Proof. unfold sload. by rewrite lookup_insert_eq. Qed.

Lemma sload_insert_ne m k k' v : k ≠ k' -> (<[k := v]> m).[k'] = m.[k'].
Proof. intros Hne. unfold sload. by rewrite lookup_insert_ne. Qed.

Lemma sload_delete_eq m k : (delete k m).[k] = zero.
Proof. unfold sload. by rewrite lookup_delete_eq. Qed.

Lemma sload_delete_ne m k k' : k ≠ k' -> (delete k m).[k'] = m.[k'].
Proof. intros Hne. unfold sload. by rewrite lookup_delete_ne. Qed.

Lemma sload_empty k : (∅ : gmap Z V).[k] = zero.
Proof. unfold sload. by rewrite lookup_empty. Qed.

Lemma sload_None m k : m !! k = None -> m.[k] = zero.
Proof. intros Hk. unfold sload. by rewrite Hk. Qed.
End Sload.

(** ** One step of the monad *)

Section Steps.
Context {B : Type}.
Implicit Types (env : Env) (st : State).

Lemma bind_require (b : bool) msg (k : unit -> Contract B) env st :
  (require b msg ≫= k) env st = if b then k () env st else Err (Revert msg).
Proof.
  unfold mbind, Contract_bind, bind, require.
  destruct b; [| done]. by destruct (k () env st) as [[[? ?] ?]|].
Qed.

Lemma bind_storage (k : State -> Contract B) env st :
  (storage ≫= k) env st = k st env st.
Proof.
  unfold mbind, Contract_bind, bind, storage.
  by destruct (k st env st) as [[[? ?] ?]|].
Qed.

Lemma bind_sender (k : address -> Contract B) env st :
  (sender ≫= k) env st = k (msg_sender env) env st.
Proof.
  unfold mbind, Contract_bind, bind, sender.
  by destruct (k (msg_sender env) env st) as [[[? ?] ?]|].
Qed.

Lemma bind_now (k : uint256 -> Contract B) env st :
  (now ≫= k) env st = k (block_timestamp env) env st.
Proof.
  unfold mbind, Contract_bind, bind, now.
  by destruct (k (block_timestamp env) env st) as [[[? ?] ?]|].
Qed.

Lemma bind_sstore (f : State -> State) (k : unit -> Contract B) env st :
  (sstore f ≫= k) env st = k () env (f st).
Proof.
  unfold mbind, Contract_bind, bind, sstore.
  by destruct (k () env (f st)) as [[[? ?] ?]|].
Qed.

Lemma bind_checked_inc (x : uint256) (k : uint256 -> Contract B) env st :
  (checked_inc x ≫= k) env st =
  if x <? MAX_UINT256 then k (x + 1) env st else Err (Panic 17).
Proof.
  unfold mbind, Contract_bind, bind, checked_inc.
  destruct (x <? MAX_UINT256); [| done].
  by destruct (k (x + 1) env st) as [[[? ?] ?]|].
Qed.

Lemma bind_assoc {A A'} (m : Contract A) (f : A -> Contract A')
    (k : A' -> Contract B) env st :
  ((m ≫= f) ≫= k) env st = (m ≫= (fun a => f a ≫= k)) env st.
Proof.
  unfold mbind, Contract_bind, bind.
  destruct (m env st) as [[[a st1] ev1]|]; [| done].
  destruct (f a env st1) as [[[a' st2] ev2]|]; [| done].
  destruct (k a' env st2) as [[[b st3] ev3]|]; [| done].
  by rewrite app_assoc.
Qed.
End Steps.

Lemma run_emit (e : Event) env st : emit e env st = Ok ((), st, [e]).
Proof. done. Qed.

Lemma run_mret {A} (a : A) env st : (mret a : Contract A) env st = Ok (a, st, []).
Proof. done. Qed.

(** ** The modifiers as guards *)

Section Modifiers.
Context {B : Type}.
Implicit Types (env : Env) (st : State) (k : unit -> Contract B).

Lemma bind_onlyOwner k env st :
  (onlyOwner ≫= k) env st =
  if msg_sender env =? _owner st then k () env st
  else Err (Revert "BiometricRegistry: caller is not owner").
Proof.
  unfold onlyOwner.
  by rewrite bind_assoc, bind_sender, bind_assoc, bind_storage, bind_require.
Qed.

Lemma bind_onlyAuthorizedNode k env st :
  (onlyAuthorizedNode ≫= k) env st =
  if authorized st (msg_sender env) then k () env st
  else Err (Revert "BiometricRegistry: not authorized node").
Proof.
  unfold onlyAuthorizedNode.
  by rewrite bind_assoc, bind_sender, bind_assoc, bind_storage, bind_require.
Qed.

Lemma bind_onlyEnrollmentCenter k env st :
  (onlyEnrollmentCenter ≫= k) env st =
  if canEnroll st (msg_sender env) then k () env st
  else Err (Revert "BiometricRegistry: not an enrollment center").
Proof.
  unfold onlyEnrollmentCenter.
  by rewrite bind_assoc, bind_sender, bind_assoc, bind_storage, bind_require.
Qed.

Lemma bind_subjectMustExist id k env st :
  (subjectMustExist id ≫= k) env st =
  if (_subjectExists st).[id] then k () env st
  else Err (Revert "BiometricRegistry: subject not found").
Proof.
  unfold subjectMustExist. by rewrite bind_assoc, bind_storage, bind_require.
Qed.

Lemma bind_subjectMustBeActive id k env st :
  (subjectMustBeActive id ≫= k) env st =
  if isActive (_subjects st).[id] then k () env st
  else Err (Revert "BiometricRegistry: subject not active").
Proof.
  unfold subjectMustBeActive. by rewrite bind_assoc, bind_storage, bind_require.
Qed.
End Modifiers.

Create Rewrite HintDb contract.
#[export] Hint Rewrite @bind_require @bind_storage @bind_sender @bind_now @bind_sstore
  @bind_checked_inc @bind_onlyOwner @bind_onlyAuthorizedNode
  @bind_onlyEnrollmentCenter @bind_subjectMustExist @bind_subjectMustBeActive
  : contract.

(** Run the straight-line part of a function body up to the next guard. *)
Ltac exec := repeat (autorewrite with contract; cbn beta).

Ltac fields :=
  cbn [_owner _subjectCount _nodeCount _authRecordCount _subjects _nodes
       _authRecords _subjectExists _nodeEnrollments _allSubjectIds
       _allNodeAddresses set_owner set_subjectCount set_nodeCount
       set_authRecordCount set_subjects set_nodes set_authRecords
       set_subjectExists set_nodeEnrollments set_allSubjectIds
       set_allNodeAddresses] in *.

Ltac run_body := exec; rewrite ?run_emit, ?run_mret; fields.

(** ** What each function computes

    The body of every external function, run to its end: the guards in the
    order of the source, then the committed storage and the event. *)

Lemma enrollSubject_run id h d cid bt env st :
  enrollSubject id h d cid bt env st =
  if canEnroll st (msg_sender env) then
    if id =? 0 then Err (Revert "BiometricRegistry: invalid subject ID")
    else if h =? 0 then Err (Revert "BiometricRegistry: invalid commitment hash")
    else if (_subjectExists st).[id]
      then Err (Revert "BiometricRegistry: subject already exists")
    else if enrollmentCount (_nodes st).[msg_sender env] <? MAX_UINT256 then
      if _subjectCount st <? MAX_UINT256 then
        Ok ((), enrolled id h d cid bt env st,
            [SubjectEnrolled id (msg_sender env) bt (block_timestamp env)])
      else Err (Panic 17)
    else Err (Panic 17)
  else Err (Revert "BiometricRegistry: not an enrollment center").
Proof.
  unfold enrollSubject. run_body.
  destruct (canEnroll st (msg_sender env)); [| done].
  destruct (id =? 0); [done |]. destruct (h =? 0); [done |].
  destruct ((_subjectExists st).[id]); [done |]. cbn [negb].
  destruct (_ <? MAX_UINT256); [| done].
  destruct (_ <? MAX_UINT256); [| done].
  done.
Qed.

Lemma updateSubject_run id h d cid env st :
  updateSubject id h d cid env st =
  if canEnroll st (msg_sender env) then
    if (_subjectExists st).[id] then
      if isActive (_subjects st).[id] then
        if h =? 0 then Err (Revert "BiometricRegistry: invalid commitment hash")
        else Ok ((), updated id h d cid env st,
                 [SubjectUpdated id (msg_sender env) (block_timestamp env)])
      else Err (Revert "BiometricRegistry: subject not active")
    else Err (Revert "BiometricRegistry: subject not found")
  else Err (Revert "BiometricRegistry: not an enrollment center").
Proof.
  unfold updateSubject. run_body.
  destruct (canEnroll st (msg_sender env)); [| done].
  destruct ((_subjectExists st).[id]); [| done].
  destruct (isActive _); [| done].
  by destruct (h =? 0).
Qed.

Lemma deactivateSubject_run id env st :
  deactivateSubject id env st =
  if canEnroll st (msg_sender env) then
    if (_subjectExists st).[id] then
      Ok ((), toggled false id env st,
          [SubjectDeactivated id (msg_sender env) (block_timestamp env)])
    else Err (Revert "BiometricRegistry: subject not found")
  else Err (Revert "BiometricRegistry: not an enrollment center").
Proof.
  unfold deactivateSubject, toggled. run_body.
  by rewrite sload_insert_eq, insert_insert_eq.
Qed.

Lemma reactivateSubject_run id env st :
  reactivateSubject id env st =
  if canEnroll st (msg_sender env) then
    if (_subjectExists st).[id] then
      Ok ((), toggled true id env st,
          [SubjectReactivated id (msg_sender env) (block_timestamp env)])
    else Err (Revert "BiometricRegistry: subject not found")
  else Err (Revert "BiometricRegistry: not an enrollment center").
Proof.
  unfold reactivateSubject, toggled. run_body.
  by rewrite sload_insert_eq, insert_insert_eq.
Qed.

Lemma getSubject_run id env st :
  getSubject id env st =
  if authorized st (msg_sender env) then
    if (_subjectExists st).[id] then
      if isActive (_subjects st).[id] then
        let s := (_subjects st).[id] in
        Ok ((subjectId s, commitmentHash s, delta s, templateCID s,
             biometricType s, enrolledAt s), st, [])
      else Err (Revert "BiometricRegistry: subject not active")
    else Err (Revert "BiometricRegistry: subject not found")
  else Err (Revert "BiometricRegistry: not authorized node").
Proof.
  unfold getSubject. run_body.
  destruct (authorized st (msg_sender env)); [| done].
  destruct ((_subjectExists st).[id]); [| done].
  destruct (isActive _); [| done].
  by destruct ((_subjects st).[id]).
Qed.

Lemma checkSubjectStatus_run id env st :
  checkSubjectStatus id env st =
  Ok (((_subjectExists st).[id], isActive (_subjects st).[id]), st, []).
Proof. unfold checkSubjectStatus. by run_body. Qed.

Lemma verifyCommitment_run id h env st :
  verifyCommitment id h env st =
  if authorized st (msg_sender env) then
    if (_subjectExists st).[id] then
      if isActive (_subjects st).[id] then
        Ok (commitmentHash (_subjects st).[id] =? h, st, [])
      else Err (Revert "BiometricRegistry: subject not active")
    else Err (Revert "BiometricRegistry: subject not found")
  else Err (Revert "BiometricRegistry: not authorized node").
Proof. unfold verifyCommitment. by run_body. Qed.

Lemma logAuthentication_run id ok why env st :
  logAuthentication id ok why env st =
  if authorized st (msg_sender env) then
    if _authRecordCount st <? MAX_UINT256 then
      Ok ((), logged id ok why env st,
          [AuthenticationLogged id (msg_sender env) ok (block_timestamp env)])
    else Err (Panic 17)
  else Err (Revert "BiometricRegistry: not authorized node").
Proof. unfold logAuthentication. by run_body. Qed.

Lemma getAuthRecord_run n env st :
  getAuthRecord n env st =
  if authorized st (msg_sender env) then
    let r := (_authRecords st).[n] in
    Ok ((ar_subjectId r, verifier r, success r, reason r, timestamp r), st, [])
  else Err (Revert "BiometricRegistry: not authorized node").
Proof. unfold getAuthRecord. by run_body. Qed.

Lemma registerNode_run a nm ec env st :
  registerNode a nm ec env st =
  if canEnroll st (msg_sender env) then
    if a =? 0 then Err (Revert "BiometricRegistry: invalid address")
    else if nodeAddress (_nodes st).[a] =? 0 then
      if _nodeCount st <? MAX_UINT256 then
        Ok ((), registered a nm ec env st,
            [NodeRegistered (_nodeCount st + 1) a nm ec (block_timestamp env)])
      else Err (Panic 17)
    else Err (Revert "BiometricRegistry: node exists")
  else Err (Revert "BiometricRegistry: not an enrollment center").
Proof.
  unfold registerNode. run_body.
  destruct (canEnroll st (msg_sender env)); [| done].
  destruct (a =? 0); [done |]. cbn [negb].
  destruct ((_nodes st).[a]) as [? ? a' ? ? ? ?]; cbn [nodeAddress].
  by destruct (a' =? 0).
Qed.

Lemma setNodeAuthorization_run a b env st :
  setNodeAuthorization a b env st =
  if canEnroll st (msg_sender env) then
    if nodeAddress (_nodes st).[a] =? 0
      then Err (Revert "BiometricRegistry: node not found")
    else if a =? _owner st then Err (Revert "BiometricRegistry: cannot modify owner")
    else Ok ((), reauthorized a b st,
             [NodeStatusChanged a b (block_timestamp env)])
  else Err (Revert "BiometricRegistry: not an enrollment center").
Proof.
  unfold setNodeAuthorization. run_body.
  destruct (canEnroll st (msg_sender env)); [| done].
  destruct (nodeAddress _ =? 0); [done |]. by destruct (a =? _owner st).
Qed.

Lemma getNode_run a env st :
  getNode a env st =
  let node := (_nodes st).[a] in
  Ok ((nodeId node, name node, isEnrollmentCenter node, isAuthorized node,
       registeredAt node, enrollmentCount node), st, []).
Proof. unfold getNode. by run_body. Qed.

Lemma transferOwnership_run newOwner env st :
  transferOwnership newOwner env st =
  if msg_sender env =? _owner st then
    if newOwner =? 0 then Err (Revert "BiometricRegistry: invalid new owner")
    else Ok ((), transferred newOwner st,
             [OwnershipTransferred (_owner st) newOwner])
  else Err (Revert "BiometricRegistry: caller is not owner").
Proof.
  unfold transferOwnership, transferred. run_body.
  destruct (msg_sender env =? _owner st); [| done].
  destruct (newOwner =? 0); [done |]. cbn [negb].
  by rewrite sload_insert_eq, insert_insert_eq.
Qed.

Lemma isEnrollmentCenter_run a env st :
  View.isEnrollmentCenter a env st =
  Ok (isEnrollmentCenter (_nodes st).[a] && isAuthorized (_nodes st).[a], st, []).
Proof.
  unfold View.isEnrollmentCenter. run_body. by destruct ((_nodes st).[a]).
Qed.

Lemma isAuthorizedNode_run a env st :
  View.isAuthorizedNode a env st = Ok (isAuthorized (_nodes st).[a], st, []).
Proof. unfold View.isAuthorizedNode. by run_body. Qed.

Lemma deploy_run env :
  deploy env =
  mkState (msg_sender env) 0 1 0 ∅
    {[msg_sender env :=
        mkNode 1 "Main Enrollment Center" (msg_sender env) true true
          (block_timestamp env) 0]}
    ∅ ∅ ∅ [] [msg_sender env].
Proof. unfold deploy, commit, constructor. by run_body. Qed.

Create Rewrite HintDb registry.
#[export] Hint Rewrite enrollSubject_run updateSubject_run deactivateSubject_run
  reactivateSubject_run getSubject_run checkSubjectStatus_run
  verifyCommitment_run logAuthentication_run getAuthRecord_run
  registerNode_run setNodeAuthorization_run getNode_run transferOwnership_run
  isEnrollmentCenter_run isAuthorizedNode_run : registry.

(** * Invariants of the reachable storage *)

Lemma is_bytes32_range x : is_bytes32 x = true -> 0 <= x < TWO_256.
Proof. unfold is_bytes32. rewrite andb_true_iff, Z.leb_le, Z.ltb_lt. lia. Qed.

(** Distinct keys drawn from [1 .. M-1]: there are at most [M - 1] of them. *)
Lemma distinct_keys_bound (M : Z) (l : list Z) :
  NoDup l -> (forall x, x ∈ l -> 1 <= x < M) -> Z.of_nat (length l) <= Z.max 0 (M - 1).
Proof.
  intros Hnd Hrange.
  assert (Hsub : l ⊆+ seqZ 1 (M - 1)).
  { apply NoDup_submseteq; [done |]. intros x Hx. apply elem_of_seqZ.
    specialize (Hrange x Hx). lia. }
  apply submseteq_length in Hsub. rewrite length_seqZ in Hsub. lia.
Qed.

Lemma Inv_deploy env : Inv (deploy env).
Proof.
  rewrite deploy_run. split; fields; try done.
  - constructor.
  - intros x. rewrite sload_empty. split; [by intros ?%elem_of_nil | done].
  - by intros x ?%elem_of_nil.
  - intros a. destruct (decide (msg_sender env = a)) as [-> | Hne].
    + unfold sload. by rewrite lookup_singleton_eq.
    + unfold sload. by rewrite lookup_singleton_ne.
  - intros k. rewrite lookup_empty. split; [by intros [? ?] | lia].
Qed.

(** A fresh, non-zero id leaves room in the subject counter. *)
Lemma Inv_room st id :
  Inv st -> 0 <= id < TWO_256 -> id <> 0 -> (_subjectExists st).[id] = false ->
  _subjectCount st < MAX_UINT256.
Proof.
  intros HI Hid Hnz Hfresh.
  assert (Hnew : id ∉ _allSubjectIds st).
  { intros Hin%(inv_ids_exist st HI). congruence. }
  pose proof (distinct_keys_bound TWO_256 (id :: _allSubjectIds st)) as Hb.
  rewrite (inv_count st HI). cbn [length] in Hb.
  assert (Z.of_nat (S (length (_allSubjectIds st))) <= Z.max 0 (TWO_256 - 1)).
  { apply Hb.
    - constructor; [done | apply (inv_ids_nodup st HI)].
    - intros x [-> | Hx]%elem_of_cons; [lia | by apply (inv_ids_range st HI)]. }
  unfold TWO_256, MAX_UINT256 in *. lia.
Qed.

Lemma Inv_enrollSubject id h d cid bt env st :
  Inv st -> 0 <= id < TWO_256 -> id <> 0 -> (_subjectExists st).[id] = false ->
  Inv (enrolled id h d cid bt env st).
Proof.
  intros HI Hid Hnz Hfresh. destruct HI as [Hnd Hex Hrg Hcnt Hen Hac Had].
  unfold enrolled. split; fields; try done.
  - apply NoDup_app. split; [done |]. split; [| apply NoDup_singleton].
    intros x Hx ->%list_elem_of_singleton. apply Hex in Hx. congruence.
  - intros x. rewrite elem_of_app, list_elem_of_singleton.
    destruct (decide (id = x)) as [-> | Hne].
    + rewrite sload_insert_eq. tauto.
    + rewrite sload_insert_ne by done. rewrite Hex. intuition congruence.
  - intros x [Hx | ->%list_elem_of_singleton]%elem_of_app; [by apply Hrg | lia].
  - rewrite length_app. cbn [length]. lia.
  - intros a. destruct (decide (msg_sender env = a)) as [<- | Hne].
    + rewrite sload_insert_eq. cbn [enrollmentCount with_enrollmentCount].
      specialize (Hen (msg_sender env)). lia.
    + rewrite sload_insert_ne by done. specialize (Hen a). lia.
Qed.

Lemma Inv_same_ledger st st' :
  Inv st ->
  _allSubjectIds st' = _allSubjectIds st ->
  _subjectExists st' = _subjectExists st ->
  _subjectCount st' = _subjectCount st ->
  (forall a, 0 <= enrollmentCount (_nodes st').[a] <= _subjectCount st) ->
  _authRecordCount st' = _authRecordCount st ->
  _authRecords st' = _authRecords st ->
  Inv st'.
Proof.
  intros [Hnd Hex Hrg Hcnt Hen Hac Had] Hids Hexs Hc Hn Hrc Hrs.
  split; rewrite ?Hids, ?Hexs, ?Hc, ?Hrc, ?Hrs; done.
Qed.

Lemma Inv_logAuthentication id ok why env st :
  Inv st -> Inv (logged id ok why env st).
Proof.
  intros [Hnd Hex Hrg Hcnt Hen Hac Had]. unfold logged. split; fields; try done.
  - lia.
  - intros k. destruct (decide (_authRecordCount st + 1 = k)) as [<- | Hne].
    + rewrite lookup_insert_eq. split; [lia | by eexists].
    + rewrite lookup_insert_ne by done. rewrite Had. lia.
Qed.

Lemma Inv_transferOwnership newOwner st : Inv st -> Inv (transferred newOwner st).
Proof.
  intros HI. apply (Inv_same_ledger st); try done.
  intros a. unfold transferred; fields.
  destruct (decide (_owner st = a)) as [<- | Hne].
  - rewrite sload_delete_eq. cbn. pose proof (inv_enrollments st HI 0). lia.
  - rewrite sload_delete_ne by done.
    destruct (decide (newOwner = a)) as [<- | Hne'].
    + rewrite sload_insert_eq. apply (inv_enrollments st HI).
    + rewrite sload_insert_ne by done. apply (inv_enrollments st HI).
Qed.

Lemma Inv_registerNode a nm ec env st : Inv st -> Inv (registered a nm ec env st).
Proof.
  intros HI. apply (Inv_same_ledger st); try done.
  intros b. unfold registered; fields.
  destruct (decide (a = b)) as [<- | Hne].
  - rewrite sload_insert_eq. cbn. pose proof (inv_enrollments st HI 0). lia.
  - rewrite sload_insert_ne by done. apply (inv_enrollments st HI).
Qed.

Lemma Inv_setNodeAuthorization a b st : Inv st -> Inv (reauthorized a b st).
Proof.
  intros HI. apply (Inv_same_ledger st); try done.
  intros c. unfold reauthorized; fields.
  destruct (decide (a = c)) as [<- | Hne].
  - rewrite sload_insert_eq. apply (inv_enrollments st HI).
  - rewrite sload_insert_ne by done. apply (inv_enrollments st HI).
Qed.

Lemma Inv_apply_tx st tx : Inv st -> wf_tx tx = true -> Inv (apply_tx st tx).
Proof.
  intros HI Hwf. destruct tx as [env c]. unfold apply_tx, commit, wf_tx in *.
  cbn [fst snd] in *. apply andb_true_iff in Hwf as [_ Hwf].
  destruct c as [id h d cid bt | id h d cid | id | id | id ok why | a nm ec | a b | a];
    cbn [dispatch wf_call] in *; autorewrite with registry.
  - apply andb_true_iff in Hwf as [Hid%is_bytes32_range _].
    destruct (canEnroll _ _); [| done].
    destruct (id =? 0) eqn:Hz; [done |]. apply Z.eqb_neq in Hz.
    destruct (h =? 0); [done |].
    destruct ((_subjectExists st).[id]) eqn:Hex; [done |].
    destruct (_ <? MAX_UINT256); [| done].
    destruct (_ <? MAX_UINT256); [| done].
    by apply Inv_enrollSubject.
  - destruct (canEnroll _ _); [| done].
    destruct ((_subjectExists st).[id]); [| done].
    destruct (isActive _); [| done].
    destruct (h =? 0); [done |].
    apply (Inv_same_ledger st); try done. apply (inv_enrollments st HI).
  - destruct (canEnroll _ _); [| done].
    destruct ((_subjectExists st).[id]); [| done].
    apply (Inv_same_ledger st); try done. apply (inv_enrollments st HI).
  - destruct (canEnroll _ _); [| done].
    destruct ((_subjectExists st).[id]); [| done].
    apply (Inv_same_ledger st); try done. apply (inv_enrollments st HI).
  - destruct (authorized _ _); [| done].
    destruct (_ <? MAX_UINT256); [| done]. by apply Inv_logAuthentication.
  - destruct (canEnroll _ _); [| done].
    destruct (a =? 0); [done |].
    destruct (_ =? 0); [| done].
    destruct (_ <? MAX_UINT256); [| done]. by apply Inv_registerNode.
  - destruct (canEnroll _ _); [| done].
    destruct (_ =? 0); [done |].
    destruct (a =? _owner st); [done |]. by apply Inv_setNodeAuthorization.
  - destruct (_ =? _owner st); [| done].
    destruct (a =? 0); [done |]. by apply Inv_transferOwnership.
Qed.

Lemma Inv_fold txs : forall st,
  Inv st -> forallb wf_tx txs = true -> Inv (fold_left apply_tx txs st).
Proof.
  induction txs as [| tx txs IH]; intros st HI Hwf; [done |].
  cbn [forallb fold_left] in *. apply andb_true_iff in Hwf as [Htx Htxs].
  apply IH; [by apply Inv_apply_tx | done].
Qed.

Lemma Inv_run deployer txs : wf_history deployer txs = true -> Inv (run deployer txs).
Proof.
  unfold wf_history, run. intros [_ Hwf]%andb_true_iff.
  apply Inv_fold; [apply Inv_deploy | done].
Qed.

(** ** The truffle test-suite scenarios, replayed on the model *)

Example test_deployment :
  View.owner Scenario.owner (deploy Scenario.owner) = Ok (1, deploy Scenario.owner, [])
  /\ _nodeCount (deploy Scenario.owner) = 1
  /\ _subjectCount (deploy Scenario.owner) = 0
  /\ canEnroll (deploy Scenario.owner) 1 = true.
Proof. by vm_compute. Qed.

Example test_reject_duplicate_enrollment :
  enrollSubject 11 21 [] "QmTestHash123" FACIAL Scenario.owner
    (run Scenario.owner [(Scenario.owner, Scenario.subject1)])
  = Err (Revert "BiometricRegistry: subject already exists").
Proof. by vm_compute. Qed.

Example test_reject_enrollment_from_non_EC :
  enrollSubject 11 21 [] "QmTestHash123" FACIAL Scenario.user1 (deploy Scenario.owner)
  = Err (Revert "BiometricRegistry: not an enrollment center").
Proof. by vm_compute. Qed.

Example test_AC_verifies_commitment :
  let st := run Scenario.owner Scenario.withAuthCenter in
  verifyCommitment 11 21 Scenario.authCenter st = Ok (true, st, [])
  /\ verifyCommitment 11 22 Scenario.authCenter st = Ok (false, st, []).
Proof. by vm_compute. Qed.

Example test_deactivate_then_reactivate :
  let st := run Scenario.owner Scenario.withAuthCenter in
  let st1 := commit (deactivateSubject 11) Scenario.owner st in
  let st2 := commit (reactivateSubject 11) Scenario.owner st1 in
  checkSubjectStatus 11 Scenario.user1 st1 = Ok ((true, false), st1, [])
  /\ checkSubjectStatus 11 Scenario.user1 st2 = Ok ((true, true), st2, []).
Proof. by vm_compute. Qed.

(** * Properties of the registry *)

(** C1. In every storage reached from deployment through well-formed
    transactions, a caller that is an authorized enrollment center and
    enrolls a fresh, non-zero [id] with a non-zero commitment hash succeeds:
    the subject is created active, [checkSubjectStatus id] right after
    returns [(true, true)] for any caller, and both the subject counter and
    the caller's [enrollmentCount] grow by exactly one. *)
Theorem C1_enroll_then_status deployer txs env id h d cid bt :
  wf_history deployer txs = true ->
  canEnroll (run deployer txs) (msg_sender env) = true ->
  is_bytes32 id = true -> id <> 0 -> h <> 0 ->
  (_subjectExists (run deployer txs)).[id] = false ->
  exists st',
    enrollSubject id h d cid bt env (run deployer txs)
      = Ok ((), st', [SubjectEnrolled id (msg_sender env) bt (block_timestamp env)])
    /\ (_subjects st').[id]
       = mkSubject id h d cid bt (msg_sender env) (block_timestamp env)
           (block_timestamp env) true
    /\ isActive (_subjects st').[id] = true
    /\ (forall env', checkSubjectStatus id env' st' = Ok ((true, true), st', []))
    /\ _subjectCount st' = _subjectCount (run deployer txs) + 1
    /\ enrollmentCount (_nodes st').[msg_sender env]
       = enrollmentCount (_nodes (run deployer txs)).[msg_sender env] + 1.
Proof.
  intros Hwf Hec Hid Hnz Hh Hfresh.
  set (st := run deployer txs) in *.
  assert (HI : Inv st) by by apply Inv_run.
  apply is_bytes32_range in Hid.
  pose proof (Inv_room st id HI Hid Hnz Hfresh) as Hroom.
  pose proof (inv_enrollments st HI (msg_sender env)) as Hen.
  exists (enrolled id h d cid bt env st).
  rewrite enrollSubject_run, Hec, Hfresh.
  apply Z.eqb_neq in Hnz, Hh. rewrite Hnz, Hh.
  replace (_ <? MAX_UINT256) with true by (symmetry; apply Z.ltb_lt; lia).
  replace (_subjectCount st <? MAX_UINT256) with true by (symmetry; by apply Z.ltb_lt).
  split; [done |].
  assert (Hsub : (_subjects (enrolled id h d cid bt env st)).[id]
                 = mkSubject id h d cid bt (msg_sender env) (block_timestamp env)
                     (block_timestamp env) true).
  { unfold enrolled; fields. by rewrite sload_insert_eq. }
  split; [done |]. split; [by rewrite Hsub |]. split; [| split].
  - intros env'. rewrite checkSubjectStatus_run, Hsub.
    unfold enrolled; fields. by rewrite sload_insert_eq.
  - done.
  - unfold enrolled; fields. by rewrite sload_insert_eq.
Qed.

Lemma C1_enroll_then_status_witness :
  exists st',
    enrollSubject 5 7 [] "cid" IRIS (mkEnv 1 1001) (run (mkEnv 1 1000) [])
      = Ok ((), st', [SubjectEnrolled 5 1 IRIS 1001])
    /\ (_subjects st').[5] = mkSubject 5 7 [] "cid" IRIS 1 1001 1001 true
    /\ isActive (_subjects st').[5] = true
    /\ (forall env', checkSubjectStatus 5 env' st' = Ok ((true, true), st', []))
    /\ _subjectCount st' = _subjectCount (run (mkEnv 1 1000) []) + 1
    /\ enrollmentCount (_nodes st').[1]
       = enrollmentCount (_nodes (run (mkEnv 1 1000) [])).[1] + 1.
Proof.
  apply (C1_enroll_then_status (mkEnv 1 1000) [] (mkEnv 1 1001) 5 7 [] "cid" IRIS);
    [reflexivity | reflexivity | reflexivity | lia | lia | reflexivity].
Defined.

(** No entry point clears an existence flag. *)
Lemma exists_apply_tx st tx id :
  (_subjectExists st).[id] = true -> (_subjectExists (apply_tx st tx)).[id] = true.
Proof.
  intros Hex. destruct tx as [env c]. unfold apply_tx, commit. cbn [fst snd].
  destruct c as [id' h d cid bt | id' h d cid | id' | id' | id' ok why
                | a nm ec | a b | a];
    cbn [dispatch]; autorewrite with registry;
    repeat match goal with
           | |- context [if ?b then _ else _] => destruct b eqn:?
           end; try done.
  unfold enrolled; fields.
  destruct (decide (id' = id)) as [-> | Hne];
    [by rewrite sload_insert_eq | by rewrite sload_insert_ne].
Qed.

Lemma exists_fold more : forall st id,
  (_subjectExists st).[id] = true ->
  (_subjectExists (fold_left apply_tx more st)).[id] = true.
Proof.
  induction more as [| tx more IH]; intros st id Hex; [done |].
  cbn [fold_left]. by apply IH, exists_apply_tx.
Qed.

Lemma run_app deployer txs more :
  run deployer (txs ++ more) = fold_left apply_tx more (run deployer txs).
Proof. unfold run. apply fold_left_app. Qed.

(** C2 does not hold for a zero hash: the owner enrolls subject 5 and then
    re-enrolls the same id with a zero commitment hash.  The zero-hash guard
    comes before the duplicate guard, so the call is rejected as an invalid
    argument, not as a duplicate. *)
Lemma C2_zero_hash_counterexample :
  let st := run (mkEnv 1 1000) [(mkEnv 1 1000, EnrollSubject 5 7 [] "cid" FACIAL)] in
  (_subjectExists st).[5] = true
  /\ canEnroll st 1 = true
  /\ enrollSubject 5 0 [] "cid" FACIAL (mkEnv 1 1001) st
     = Err (Revert "BiometricRegistry: invalid commitment hash")
  /\ ~ fails_with DuplicateSubject (enrollSubject 5 0 [] "cid" FACIAL (mkEnv 1 1001) st).
Proof. vm_compute. repeat split; try done. Qed.

(** C2.  Once [id] is in the ledger, then after any further
    well-formed transactions (updates and deactivations included) every
    later [enrollSubject] with that id fails and leaves the storage as it
    was.  For an authorized enrollment center the failure is
    [DuplicateSubject] when the commitment hash is non-zero and
    [InvalidArgument] when it is zero; any other caller is [Unauthorized]. *)
Theorem C2_reenroll_always_fails deployer txs more env id h d cid bt :
  wf_history deployer (txs ++ more) = true ->
  (_subjectExists (run deployer txs)).[id] = true ->
  ~ succeeds (enrollSubject id h d cid bt env (run deployer (txs ++ more)))
  /\ commit (enrollSubject id h d cid bt) env (run deployer (txs ++ more))
     = run deployer (txs ++ more)
  /\ (canEnroll (run deployer (txs ++ more)) (msg_sender env) = true -> h <> 0 ->
      fails_with DuplicateSubject
        (enrollSubject id h d cid bt env (run deployer (txs ++ more))))
  /\ (canEnroll (run deployer (txs ++ more)) (msg_sender env) = true -> h = 0 ->
      fails_with InvalidArgument
        (enrollSubject id h d cid bt env (run deployer (txs ++ more))))
  /\ (canEnroll (run deployer (txs ++ more)) (msg_sender env) = false ->
      fails_with Unauthorized
        (enrollSubject id h d cid bt env (run deployer (txs ++ more)))).
Proof.
  intros Hwf Hex.
  assert (HI : Inv (run deployer (txs ++ more))) by by apply Inv_run.
  assert (Hex' : (_subjectExists (run deployer (txs ++ more))).[id] = true).
  { rewrite run_app. by apply exists_fold. }
  set (st := run deployer (txs ++ more)) in *.
  assert (Hnz : (id =? 0) = false).
  { apply Z.eqb_neq. apply (inv_ids_exist st HI) in Hex'.
    apply (inv_ids_range st HI) in Hex'. lia. }
  unfold commit. rewrite enrollSubject_run, Hnz, Hex'.
  destruct (canEnroll st (msg_sender env)); destruct (h =? 0) eqn:Hh;
    cbn [succeeds fails_with]; repeat split; try done; try tauto.
  - intros _ Hh'. apply Z.eqb_eq in Hh. done.
  - intros _ ->. done.
Qed.

Lemma C2_reenroll_always_fails_witness :
  let deployer := mkEnv 1 1000 in
  let txs := [(mkEnv 1 1000, EnrollSubject 5 7 [] "cid" FACIAL)] in
  let more := [(mkEnv 1 1001, UpdateSubject 5 8 [] "cid2");
               (mkEnv 1 1002, DeactivateSubject 5)] in
  ~ succeeds (enrollSubject 5 9 [] "c" IRIS (mkEnv 1 1003) (run deployer (txs ++ more)))
  /\ commit (enrollSubject 5 9 [] "c" IRIS) (mkEnv 1 1003) (run deployer (txs ++ more))
     = run deployer (txs ++ more)
  /\ (canEnroll (run deployer (txs ++ more)) 1 = true -> 9 <> 0 ->
      fails_with DuplicateSubject
        (enrollSubject 5 9 [] "c" IRIS (mkEnv 1 1003) (run deployer (txs ++ more))))
  /\ (canEnroll (run deployer (txs ++ more)) 1 = true -> 9 = 0 ->
      fails_with InvalidArgument
        (enrollSubject 5 9 [] "c" IRIS (mkEnv 1 1003) (run deployer (txs ++ more))))
  /\ (canEnroll (run deployer (txs ++ more)) 1 = false ->
      fails_with Unauthorized
        (enrollSubject 5 9 [] "c" IRIS (mkEnv 1 1003) (run deployer (txs ++ more)))).
Proof.
  intros deployer txs more.
  apply (C2_reenroll_always_fails deployer txs more (mkEnv 1 1003) 5 9 [] "c" IRIS);
    reflexivity.
Defined.

(** C3. For an existing subject, [deactivateSubject id] followed by
    [reactivateSubject id], each called by an authorized enrollment center,
    both succeed; the subject ends active with [commitmentHash], [delta],
    [templateCID], [biometricType], [enrolledBy] and [enrolledAt] as before,
    and the whole storage differs from the initial one only in that
    subject's [isActive] and [updatedAt]. *)
Theorem C3_deactivate_reactivate st env1 env2 id :
  canEnroll st (msg_sender env1) = true ->
  canEnroll st (msg_sender env2) = true ->
  (_subjectExists st).[id] = true ->
  exists st1 st2,
    deactivateSubject id env1 st
      = Ok ((), st1, [SubjectDeactivated id (msg_sender env1) (block_timestamp env1)])
    /\ isActive (_subjects st1).[id] = false
    /\ reactivateSubject id env2 st1
      = Ok ((), st2, [SubjectReactivated id (msg_sender env2) (block_timestamp env2)])
    /\ isActive (_subjects st2).[id] = true
    /\ commitmentHash (_subjects st2).[id] = commitmentHash (_subjects st).[id]
    /\ delta (_subjects st2).[id] = delta (_subjects st).[id]
    /\ templateCID (_subjects st2).[id] = templateCID (_subjects st).[id]
    /\ biometricType (_subjects st2).[id] = biometricType (_subjects st).[id]
    /\ enrolledBy (_subjects st2).[id] = enrolledBy (_subjects st).[id]
    /\ enrolledAt (_subjects st2).[id] = enrolledAt (_subjects st).[id]
    /\ subjectId (_subjects st2).[id] = subjectId (_subjects st).[id]
    /\ updatedAt (_subjects st2).[id] = block_timestamp env2
    /\ st2 = set_subjects
               (<[id := with_updatedAt (block_timestamp env2)
                          (with_isActive true (_subjects st).[id])]> (_subjects st))
               st.
Proof.
  intros Hc1 Hc2 Hex.
  exists (toggled false id env1 st), (toggled true id env2 (toggled false id env1 st)).
  rewrite deactivateSubject_run, Hc1, Hex. split; [done |].
  rewrite reactivateSubject_run.
  assert (Hc2' : canEnroll (toggled false id env1 st) (msg_sender env2) = true) by done.
  assert (Hex' : (_subjectExists (toggled false id env1 st)).[id] = true) by done.
  rewrite Hc2', Hex'.
  assert (Hst : toggled true id env2 (toggled false id env1 st)
                = set_subjects
                    (<[id := with_updatedAt (block_timestamp env2)
                               (with_isActive true (_subjects st).[id])]>
                       (_subjects st)) st).
  { unfold toggled, set_subjects; fields.
    by rewrite sload_insert_eq, insert_insert_eq. }
  split; [unfold toggled; fields; by rewrite sload_insert_eq |].
  split; [done |]. rewrite Hst. fields. rewrite sload_insert_eq.
  by repeat split.
Qed.

Lemma C3_deactivate_reactivate_witness :
  let st := run Scenario.owner Scenario.withAuthCenter in
  exists st1 st2,
    deactivateSubject 11 (mkEnv 1 2000) st = Ok ((), st1, [SubjectDeactivated 11 1 2000])
    /\ isActive (_subjects st1).[11] = false
    /\ reactivateSubject 11 (mkEnv 1 3000) st1
       = Ok ((), st2, [SubjectReactivated 11 1 3000])
    /\ isActive (_subjects st2).[11] = true
    /\ commitmentHash (_subjects st2).[11] = commitmentHash (_subjects st).[11]
    /\ delta (_subjects st2).[11] = delta (_subjects st).[11]
    /\ templateCID (_subjects st2).[11] = templateCID (_subjects st).[11]
    /\ biometricType (_subjects st2).[11] = biometricType (_subjects st).[11]
    /\ enrolledBy (_subjects st2).[11] = enrolledBy (_subjects st).[11]
    /\ enrolledAt (_subjects st2).[11] = enrolledAt (_subjects st).[11]
    /\ subjectId (_subjects st2).[11] = subjectId (_subjects st).[11]
    /\ updatedAt (_subjects st2).[11] = 3000
    /\ st2 = set_subjects
               (<[11 := with_updatedAt 3000 (with_isActive true (_subjects st).[11])]>
                  (_subjects st)) st.
Proof.
  intros st.
  apply (C3_deactivate_reactivate st (mkEnv 1 2000) (mkEnv 1 3000) 11); reflexivity.
Defined.

(** C4. For an authorized caller and an existing subject: while the subject
    is active, [verifyCommitment id h] returns a boolean, without touching
    the storage, that is [true] exactly when [h] is the stored commitment
    hash (so a wrong hash gives [false], not an error); when the subject is
    inactive the call fails with [NotActive]. *)
Theorem C4_verifyCommitment st env id h :
  authorized st (msg_sender env) = true ->
  (_subjectExists st).[id] = true ->
  (isActive (_subjects st).[id] = true ->
     exists b, verifyCommitment id h env st = Ok (b, st, [])
       /\ (b = true <-> h = commitmentHash (_subjects st).[id])
       /\ (h <> commitmentHash (_subjects st).[id] -> b = false))
  /\ (isActive (_subjects st).[id] = false ->
      verifyCommitment id h env st = Err (Revert "BiometricRegistry: subject not active")
      /\ fails_with NotActive (verifyCommitment id h env st)).
Proof.
  intros Hauth Hex. rewrite verifyCommitment_run, Hauth, Hex.
  split; intros ->; [| done].
  eexists. split; [done |]. rewrite Z.eqb_eq. split; [done |].
  intros Hne. apply Z.eqb_neq. done.
Qed.

Lemma C4_verifyCommitment_witness :
  let st := run Scenario.owner Scenario.withAuthCenter in
  (isActive (_subjects st).[11] = true ->
     exists b, verifyCommitment 11 22 Scenario.authCenter st = Ok (b, st, [])
       /\ (b = true <-> 22 = commitmentHash (_subjects st).[11])
       /\ (22 <> commitmentHash (_subjects st).[11] -> b = false))
  /\ (isActive (_subjects st).[11] = false ->
      verifyCommitment 11 22 Scenario.authCenter st
        = Err (Revert "BiometricRegistry: subject not active")
      /\ fails_with NotActive (verifyCommitment 11 22 Scenario.authCenter st)).
Proof.
  intros st. apply (C4_verifyCommitment st Scenario.authCenter 11 22); reflexivity.
Defined.

(** C5. A caller whose node record has [isAuthorized = false] -- an address
    without any node record reads as such -- is rejected as [Unauthorized]
    by [verifyCommitment], [getSubject], [logAuthentication] and
    [enrollSubject]; each rejected call commits nothing, so the subject
    counter and the whole storage stay as they were. *)
Theorem C5_unauthorized_rejected st env :
  isAuthorized (_nodes st).[msg_sender env] = false
    \/ _nodes st !! msg_sender env = None ->
  authorized st (msg_sender env) = false
  /\ (forall id h,
       fails_with Unauthorized (verifyCommitment id h env st)
       /\ commit (verifyCommitment id h) env st = st)
  /\ (forall id,
       fails_with Unauthorized (getSubject id env st)
       /\ commit (getSubject id) env st = st)
  /\ (forall id ok why,
       fails_with Unauthorized (logAuthentication id ok why env st)
       /\ commit (logAuthentication id ok why) env st = st)
  /\ (forall id h d cid bt,
       fails_with Unauthorized (enrollSubject id h d cid bt env st)
       /\ commit (enrollSubject id h d cid bt) env st = st
       /\ _subjectCount (commit (enrollSubject id h d cid bt) env st)
          = _subjectCount st
       /\ _subjects (commit (enrollSubject id h d cid bt) env st) = _subjects st
       /\ _subjectExists (commit (enrollSubject id h d cid bt) env st)
          = _subjectExists st).
Proof.
  intros Hno.
  assert (Hauth : authorized st (msg_sender env) = false).
  { destruct Hno as [Hflag | Hnone]; [done |].
    unfold authorized. by rewrite (sload_None _ _ Hnone). }
  assert (Hec : canEnroll st (msg_sender env) = false).
  { unfold canEnroll. unfold authorized in Hauth. by rewrite Hauth. }
  split; [done |].
  repeat split; intros; unfold commit;
    autorewrite with registry; rewrite ?Hauth, ?Hec; done.
Qed.

Lemma C5_unauthorized_rejected_witness :
  let st := deploy Scenario.owner in
  let env := Scenario.user1 in
  authorized st (msg_sender env) = false
  /\ (forall id h,
       fails_with Unauthorized (verifyCommitment id h env st)
       /\ commit (verifyCommitment id h) env st = st)
  /\ (forall id,
       fails_with Unauthorized (getSubject id env st)
       /\ commit (getSubject id) env st = st)
  /\ (forall id ok why,
       fails_with Unauthorized (logAuthentication id ok why env st)
       /\ commit (logAuthentication id ok why) env st = st)
  /\ (forall id h d cid bt,
       fails_with Unauthorized (enrollSubject id h d cid bt env st)
       /\ commit (enrollSubject id h d cid bt) env st = st
       /\ _subjectCount (commit (enrollSubject id h d cid bt) env st)
          = _subjectCount st
       /\ _subjects (commit (enrollSubject id h d cid bt) env st) = _subjects st
       /\ _subjectExists (commit (enrollSubject id h d cid bt) env st)
          = _subjectExists st).
Proof.
  intros st env. apply (C5_unauthorized_rejected st env). right. reflexivity.
Defined.

(** Only [logAuthentication] writes the audit log, and it writes a fresh slot. *)
Lemma authRecords_apply_tx st tx k r :
  Inv st -> _authRecords st !! k = Some r ->
  _authRecords (apply_tx st tx) !! k = Some r
  /\ _authRecordCount st <= _authRecordCount (apply_tx st tx).
Proof.
  intros HI Hk. destruct tx as [env c]. unfold apply_tx, commit. cbn [fst snd].
  destruct c as [id' h d cid bt | id' h d cid | id' | id' | id' ok why
                | a nm ec | a b | a];
    cbn [dispatch]; autorewrite with registry;
    repeat match goal with
           | |- context [if ?b then _ else _] => destruct b eqn:?
           end;
    try (split; [done |
         unfold enrolled, updated, toggled, registered, reauthorized, transferred;
         fields; lia]).
  unfold logged; fields. split; [| lia].
  rewrite lookup_insert_ne; [done |].
  assert (1 <= k <= _authRecordCount st) by (apply (inv_auth_dom st HI); by eexists).
  lia.
Qed.

Lemma authRecords_fold more : forall st k r,
  Inv st -> forallb wf_tx more = true -> _authRecords st !! k = Some r ->
  _authRecords (fold_left apply_tx more st) !! k = Some r
  /\ _authRecordCount st <= _authRecordCount (fold_left apply_tx more st).
Proof.
  induction more as [| tx more IH]; intros st k r HI Hwf Hk;
    [split; [done | cbn [fold_left]; lia] |].
  cbn [forallb fold_left] in *. apply andb_true_iff in Hwf as [Htx Hmore].
  destruct (authRecords_apply_tx st tx k r HI Hk) as [Hk' Hle].
  destruct (IH (apply_tx st tx) k r) as [Hk'' Hle']; [by apply Inv_apply_tx | done.. |].
  split; [done | lia].
Qed.

(** C6. In every reachable storage the audit records sit at exactly the ids
    [1 .. _authRecordCount] (the count is 0 at deployment); a successful
    [logAuthentication], by whatever authorized caller, stores its record at
    the fresh id [_authRecordCount + 1], makes that the new count and
    changes no other id; and a record, once stored, is found unchanged at
    its id after any further well-formed transactions. *)
Theorem C6_audit_log_append_only deployer txs :
  wf_history deployer txs = true ->
  _authRecordCount (deploy deployer) = 0
  /\ (forall k, is_Some (_authRecords (run deployer txs) !! k)
                <-> 1 <= k <= _authRecordCount (run deployer txs))
  /\ (forall env id ok why st' evs,
        logAuthentication id ok why env (run deployer txs) = Ok ((), st', evs) ->
        _authRecordCount st' = _authRecordCount (run deployer txs) + 1
        /\ _authRecords (run deployer txs) !! (_authRecordCount st') = None
        /\ _authRecords st' !! (_authRecordCount st')
           = Some (mkAuthRecord id (msg_sender env) ok why (block_timestamp env))
        /\ (forall k, k <> _authRecordCount st' ->
              _authRecords st' !! k = _authRecords (run deployer txs) !! k))
  /\ (forall more k r,
        forallb wf_tx more = true ->
        _authRecords (run deployer txs) !! k = Some r ->
        _authRecords (run deployer (txs ++ more)) !! k = Some r
        /\ _authRecordCount (run deployer txs)
           <= _authRecordCount (run deployer (txs ++ more))).
Proof.
  intros Hwf. pose proof (Inv_run deployer txs Hwf) as HI.
  set (st := run deployer txs) in *.
  split; [by rewrite deploy_run |]. split; [apply (inv_auth_dom st HI) |]. split.
  - intros env id ok why st' evs. rewrite logAuthentication_run.
    destruct (authorized _ _); [| done]. destruct (_ <? MAX_UINT256); [| done].
    intros [= <- <-]. unfold logged; fields.
    split; [done |]. split; [| split].
    + destruct (_authRecords st !! (_authRecordCount st + 1)) eqn:Hk; [| done].
      assert (1 <= _authRecordCount st + 1 <= _authRecordCount st)
        by (apply (inv_auth_dom st HI); by eexists).
      lia.
    + by rewrite lookup_insert_eq.
    + intros k Hk. by rewrite lookup_insert_ne.
  - intros more k r Hmore Hk. rewrite run_app. by apply authRecords_fold.
Qed.

Lemma C6_audit_log_append_only_witness :
  let deployer := Scenario.owner in
  let txs := Scenario.withAuthCenter ++
             [(Scenario.authCenter, LogAuthentication 11 true "Verification successful");
              (Scenario.owner, LogAuthentication 11 false "mismatch")] in
  _authRecordCount (deploy deployer) = 0
  /\ (forall k, is_Some (_authRecords (run deployer txs) !! k)
                <-> 1 <= k <= _authRecordCount (run deployer txs))
  /\ (forall env id ok why st' evs,
        logAuthentication id ok why env (run deployer txs) = Ok ((), st', evs) ->
        _authRecordCount st' = _authRecordCount (run deployer txs) + 1
        /\ _authRecords (run deployer txs) !! (_authRecordCount st') = None
        /\ _authRecords st' !! (_authRecordCount st')
           = Some (mkAuthRecord id (msg_sender env) ok why (block_timestamp env))
        /\ (forall k, k <> _authRecordCount st' ->
              _authRecords st' !! k = _authRecords (run deployer txs) !! k))
  /\ (forall more k r,
        forallb wf_tx more = true ->
        _authRecords (run deployer txs) !! k = Some r ->
        _authRecords (run deployer (txs ++ more)) !! k = Some r
        /\ _authRecordCount (run deployer txs)
           <= _authRecordCount (run deployer (txs ++ more))).
Proof.
  intros deployer txs. apply (C6_audit_log_append_only deployer txs). reflexivity.
Defined.

Example audit_ids_of_two_callers :
  let st := run Scenario.owner
              (Scenario.withAuthCenter ++
               [(Scenario.authCenter, LogAuthentication 11 true "ok");
                (Scenario.owner, LogAuthentication 11 false "mismatch")]) in
  _authRecordCount st = 2
  /\ _authRecords st !! 1 = Some (mkAuthRecord 11 3 true "ok" 1000)
  /\ _authRecords st !! 2 = Some (mkAuthRecord 11 1 false "mismatch" 1000)
  /\ _authRecords st !! 3 = None.
Proof. by vm_compute. Qed.

(** C7. [setNodeAuthorization addr b], called by an authorized enrollment
    center, fails with [NotFound] when [addr] has no node record (its
    [nodeAddress] reads as zero) and fails when [addr] is the current owner;
    for any other registered node it succeeds and sets [isAuthorized] to
    [b], leaving the node's other fields and all other nodes alone.  By
    whatever caller, the call never changes the owner's [isAuthorized]. *)
Theorem C7_setNodeAuthorization st env a b :
  (canEnroll st (msg_sender env) = true ->
   nodeAddress (_nodes st).[a] = 0 \/ _nodes st !! a = None ->
   fails_with NotFound (setNodeAuthorization a b env st))
  /\ (a = _owner st -> ~ succeeds (setNodeAuthorization a b env st))
  /\ (canEnroll st (msg_sender env) = true ->
      nodeAddress (_nodes st).[a] <> 0 -> a = _owner st ->
      setNodeAuthorization a b env st
        = Err (Revert "BiometricRegistry: cannot modify owner"))
  /\ (canEnroll st (msg_sender env) = true ->
      nodeAddress (_nodes st).[a] <> 0 -> a <> _owner st ->
      exists st',
        setNodeAuthorization a b env st
          = Ok ((), st', [NodeStatusChanged a b (block_timestamp env)])
        /\ (_nodes st').[a] = with_isAuthorized b (_nodes st).[a]
        /\ isAuthorized (_nodes st').[a] = b
        /\ (forall a', a' <> a -> (_nodes st').[a'] = (_nodes st).[a']))
  /\ (_owner (commit (setNodeAuthorization a b) env st) = _owner st
      /\ isAuthorized (_nodes (commit (setNodeAuthorization a b) env st)).[_owner st]
         = isAuthorized (_nodes st).[_owner st]).
Proof.
  unfold commit. rewrite setNodeAuthorization_run.
  split; [| split; [| split; [| split]]].
  - intros -> Habsent.
    assert (Hz : nodeAddress (_nodes st).[a] = 0).
    { destruct Habsent as [Hz | Hnone]; [done |]. by rewrite (sload_None _ _ Hnone). }
    by rewrite Hz.
  - intros ->. destruct (canEnroll _ _); [| tauto].
    destruct (nodeAddress _ =? 0); [tauto |]. rewrite Z.eqb_refl. tauto.
  - intros -> Hnz%Z.eqb_neq ->. by rewrite Hnz, Z.eqb_refl.
  - intros -> Hnz%Z.eqb_neq Hne%Z.eqb_neq. rewrite Hnz, Hne.
    exists (reauthorized a b st). unfold reauthorized; fields.
    rewrite sload_insert_eq. repeat split; try done.
    intros a' Ha'. by rewrite sload_insert_ne.
  - destruct (canEnroll _ _); [| done].
    destruct (nodeAddress _ =? 0); [done |].
    destruct (a =? _owner st) eqn:Hne; [done |]. apply Z.eqb_neq in Hne.
    unfold reauthorized; fields. by rewrite sload_insert_ne.
Qed.

Lemma C7_setNodeAuthorization_witness :
  let st := run Scenario.owner Scenario.withAuthCenter in
  fails_with NotFound (setNodeAuthorization 9 false Scenario.owner st)
  /\ ~ succeeds (setNodeAuthorization 1 false Scenario.owner st)
  /\ (exists st',
        setNodeAuthorization 3 false Scenario.owner st
          = Ok ((), st', [NodeStatusChanged 3 false 1000])
        /\ (_nodes st').[3] = with_isAuthorized false (_nodes st).[3]
        /\ isAuthorized (_nodes st').[3] = false
        /\ (forall a', a' <> 3 -> (_nodes st').[a'] = (_nodes st).[a'])).
Proof.
  intros st. split; [| split].
  - apply (C7_setNodeAuthorization st Scenario.owner 9 false);
      [reflexivity | right; reflexivity].
  - apply (C7_setNodeAuthorization st Scenario.owner 1 false). reflexivity.
  - apply (C7_setNodeAuthorization st Scenario.owner 3 false);
      [reflexivity | vm_compute; lia | vm_compute; lia].
Defined.

(** What [transferOwnership] does when the new owner is another address:
    the owner's node record moves to [newOwner] with its address field
    updated, the old address reads as an empty record and can no longer
    enroll, [newOwner] is appended to the enumeration, and [newOwner] has
    whatever capability the old owner had. *)
Lemma transferOwnership_to_other st env newOwner :
  msg_sender env = _owner st -> newOwner <> 0 -> newOwner <> _owner st ->
  exists st',
    transferOwnership newOwner env st
      = Ok ((), st', [OwnershipTransferred (_owner st) newOwner])
    /\ _owner st' = newOwner
    /\ (_nodes st').[newOwner] = with_nodeAddress newOwner (_nodes st).[_owner st]
    /\ _nodes st' !! _owner st = None
    /\ _allNodeAddresses st' = _allNodeAddresses st ++ [newOwner]
    /\ canEnroll st' newOwner = canEnroll st (_owner st)
    /\ (forall id h d cid bt,
          fails_with Unauthorized (enrollSubject id h d cid bt env st')).
Proof.
  intros Hown Hnz%Z.eqb_neq Hne. rewrite transferOwnership_run, Hown, Z.eqb_refl, Hnz.
  exists (transferred newOwner st). unfold transferred; fields.
  repeat split; try done.
  - rewrite sload_delete_ne by done. by rewrite sload_insert_eq.
  - by rewrite lookup_delete_eq.
  - unfold canEnroll; fields.
    rewrite sload_delete_ne by done. by rewrite sload_insert_eq.
  - intros. rewrite enrollSubject_run. unfold canEnroll; fields.
    by rewrite Hown, sload_delete_eq.
Qed.

(** [transferOwnership] is for the owner only and refuses the zero address. *)
Lemma transferOwnership_guards st env newOwner :
  (msg_sender env <> _owner st ->
   fails_with Unauthorized (transferOwnership newOwner env st))
  /\ (msg_sender env = _owner st -> newOwner = 0 ->
      fails_with InvalidArgument (transferOwnership newOwner env st)).
Proof.
  rewrite transferOwnership_run. split.
  - intros Hne%Z.eqb_neq. by rewrite Hne.
  - intros -> ->. by rewrite Z.eqb_refl.
Qed.

(** When the owner names itself, the record written to [_nodes[newOwner]] is
    the one [delete _nodes[previousOwner]] then clears. *)
Lemma transferOwnership_to_self st env :
  msg_sender env = _owner st -> _owner st <> 0 ->
  exists st',
    transferOwnership (_owner st) env st
      = Ok ((), st', [OwnershipTransferred (_owner st) (_owner st)])
    /\ _owner st' = _owner st
    /\ _nodes st' !! _owner st = None
    /\ canEnroll st' (_owner st') = false.
Proof.
  intros Hown Hnz%Z.eqb_neq. rewrite transferOwnership_run, Hown, Z.eqb_refl, Hnz.
  exists (transferred (_owner st) st). unfold transferred, canEnroll; fields.
  rewrite sload_delete_eq, lookup_delete_eq. by repeat split.
Qed.

(** C8 breaks on a transfer to oneself.  The deployer (address 1), owner and Main
    Enrollment Center, calls [transferOwnership 1].  The call succeeds, the
    copy onto the same slot is followed by the delete of that slot, and the
    owner is left without a node record: the new owner (still address 1) is
    neither authorized nor an enrollment center and cannot enroll. *)
Theorem C8_transfer_to_self_drops_record :
  let st := deploy (mkEnv 1 1000) in
  let st' := commit (transferOwnership 1) (mkEnv 1 1001) st in
  canEnroll st 1 = true
  /\ transferOwnership 1 (mkEnv 1 1001) st = Ok ((), st', [OwnershipTransferred 1 1])
  /\ _owner st' = 1
  /\ _nodes st' !! 1 = None
  /\ canEnroll st' 1 = false
  /\ View.isEnrollmentCenter 1 (mkEnv 1 1002) st' = Ok (false, st', [])
  /\ enrollSubject 5 7 [] "cid" FACIAL (mkEnv 1 1002) st'
     = Err (Revert "BiometricRegistry: not an enrollment center")
  /\ _allNodeAddresses st' = [1; 1].
Proof. by vm_compute. Qed.

(** As long as the owner never names itself as the new owner, the owner of
    every reachable storage is an authorized enrollment center whose record
    carries its own address. *)
Lemma owner_is_center_apply_tx st tx :
  owner_is_center st -> transfers_to_others st [tx] = true ->
  owner_is_center (apply_tx st tx).
Proof.
  intros [Hec Haddr] Hself. destruct tx as [env c].
  unfold apply_tx, commit, owner_is_center, canEnroll in *.
  cbn [transfers_to_others fst snd] in *. rewrite andb_true_r in Hself.
  destruct c as [id h d cid bt | id h d cid | id | id | id ok why
                | a nm ec | a b | a];
    cbn [dispatch]; autorewrite with registry;
    repeat match goal with
           | |- context [if ?b then _ else _] => destruct b eqn:?
           end; try done;
    unfold enrolled, registered, reauthorized, transferred; fields.
  - destruct (decide (msg_sender env = _owner st)) as [Heq | Hne].
    + rewrite Heq, !sload_insert_eq. by destruct ((_nodes st).[_owner st]).
    + by rewrite !sload_insert_ne.
  - assert (a <> _owner st).
    { intros ->.
      match goal with
      | Hz : (nodeAddress _ =? 0) = true, Hnz : (_owner st =? 0) = false |- _ =>
          apply Z.eqb_eq in Hz; apply Z.eqb_neq in Hnz; congruence
      end. }
    by rewrite !sload_insert_ne.
  - match goal with
    | Hne : (a =? _owner st) = false |- _ => apply Z.eqb_neq in Hne
    end.
    by rewrite !sload_insert_ne.
  - cbn [negb] in Hself. rewrite orb_false_r in Hself.
    apply negb_true_iff, Z.eqb_neq in Hself.
    rewrite !sload_delete_ne by done. rewrite !sload_insert_eq.
    by destruct ((_nodes st).[_owner st]).
Qed.

Lemma owner_is_center_fold txs : forall st,
  owner_is_center st -> transfers_to_others st txs = true ->
  owner_is_center (fold_left apply_tx txs st).
Proof.
  induction txs as [| tx txs IH]; intros st Hst Hself; [done |].
  cbn [fold_left]. cbn [transfers_to_others] in Hself.
  apply andb_true_iff in Hself as [Htx Hrest].
  apply IH; [| done]. apply owner_is_center_apply_tx; [done |].
  cbn [transfers_to_others]. by rewrite Htx.
Qed.

Lemma owner_is_center_deploy env : owner_is_center (deploy env).
Proof.
  rewrite deploy_run. unfold owner_is_center, canEnroll, sload; fields.
  by rewrite lookup_singleton_eq.
Qed.

(** After a history without self-transfer, [transferOwnership] to another
    non-zero address hands the enrollment capability over. *)
Lemma transferOwnership_moves_capability deployer txs env newOwner :
  transfers_to_others (deploy deployer) txs = true ->
  msg_sender env = _owner (run deployer txs) ->
  newOwner <> 0 -> newOwner <> _owner (run deployer txs) ->
  exists st',
    transferOwnership newOwner env (run deployer txs)
      = Ok ((), st', [OwnershipTransferred (_owner (run deployer txs)) newOwner])
    /\ canEnroll st' newOwner = true
    /\ View.isEnrollmentCenter newOwner env st' = Ok (true, st', [])
    /\ canEnroll st' (msg_sender env) = false.
Proof.
  intros Hself Hown Hnz Hne.
  destruct (owner_is_center_fold txs (deploy deployer)) as [Hec _];
    [apply owner_is_center_deploy | done |].
  fold (run deployer txs) in Hec.
  destruct (transferOwnership_to_other (run deployer txs) env newOwner Hown Hnz Hne)
    as (st' & Hrun & _ & _ & Hold & _ & Hcap & _).
  exists st'. rewrite Hcap, Hec. repeat split; try done.
  - rewrite isEnrollmentCenter_run. unfold canEnroll in Hcap, Hec.
    rewrite Hec in Hcap. apply andb_true_iff in Hcap as [-> ->]. done.
  - unfold canEnroll. rewrite Hown, (sload_None _ _ Hold). done.
Qed.

(** Closes [~ fails_with k r] when [r] is a success or an error of another kind. *)
Ltac other_kind :=
  let H := fresh in
  intros H; first [exact H | unfold fails_with in H; vm_compute in H; discriminate H].

Lemma registerNode_succeeds st env a nm ec :
  canEnroll st (msg_sender env) = true -> a <> 0 ->
  nodeAddress (_nodes st).[a] = 0 -> _nodeCount st < MAX_UINT256 ->
  registerNode a nm ec env st
  = Ok ((), registered a nm ec env st,
        [NodeRegistered (_nodeCount st + 1) a nm ec (block_timestamp env)]).
Proof.
  intros Hec Hnz%Z.eqb_neq Hfree Hroom%Z.ltb_lt.
  by rewrite registerNode_run, Hec, Hnz, Hfree, Hroom.
Qed.

(** C9. Whenever [registerNode a name ec] succeeds, the record it creates
    has [isAuthorized = true], whatever [ec] is.  With no further step the
    new node passes the [onlyAuthorizedNode] check: [getSubject],
    [verifyCommitment] and [logAuthentication] called by [a] are never
    rejected as [Unauthorized]; the two reads succeed on every existing
    active subject and the log call succeeds while the record counter has
    room. *)
Theorem C9_registered_node_is_authorized st env a nm ec st' evs :
  registerNode a nm ec env st = Ok ((), st', evs) ->
  (_nodes st').[a] = mkNode (_nodeCount st + 1) nm a ec true (block_timestamp env) 0
  /\ isAuthorized (_nodes st').[a] = true
  /\ isEnrollmentCenter (_nodes st').[a] = ec
  /\ (forall env', msg_sender env' = a ->
        onlyAuthorizedNode env' st' = Ok ((), st', [])
        /\ (forall id h, ~ fails_with Unauthorized (verifyCommitment id h env' st'))
        /\ (forall id, ~ fails_with Unauthorized (getSubject id env' st'))
        /\ (forall id ok why,
              ~ fails_with Unauthorized (logAuthentication id ok why env' st'))
        /\ (forall id h,
              (_subjectExists st').[id] = true ->
              isActive (_subjects st').[id] = true ->
              succeeds (verifyCommitment id h env' st')
              /\ succeeds (getSubject id env' st'))
        /\ (forall id ok why,
              _authRecordCount st' < MAX_UINT256 ->
              succeeds (logAuthentication id ok why env' st'))).
Proof.
  rewrite registerNode_run.
  destruct (canEnroll _ _); [| done]. destruct (a =? 0); [done |].
  destruct (nodeAddress _ =? 0); [| done]. destruct (_ <? MAX_UINT256); [| done].
  intros [= <- <-].
  assert (Hnode : (_nodes (registered a nm ec env st)).[a]
                  = mkNode (_nodeCount st + 1) nm a ec true (block_timestamp env) 0).
  { unfold registered; fields. by rewrite sload_insert_eq. }
  rewrite Hnode. split; [done |]. split; [done |]. split; [done |].
  intros env' <-.
  assert (Hauth : authorized (registered (msg_sender env') nm ec env st)
                    (msg_sender env') = true).
  { unfold authorized. by rewrite Hnode. }
  split; [| split; [| split; [| split; [| split]]]].
  - unfold onlyAuthorizedNode. run_body. by rewrite Hnode.
  - intros id h. rewrite verifyCommitment_run, Hauth.
    destruct ((_subjectExists _).[id]); [| other_kind].
    destruct (isActive _); other_kind.
  - intros id. rewrite getSubject_run, Hauth.
    destruct ((_subjectExists _).[id]); [| other_kind].
    destruct (isActive _); other_kind.
  - intros id ok why. rewrite logAuthentication_run, Hauth.
    destruct (_ <? MAX_UINT256); other_kind.
  - intros id h Hex Hact.
    by rewrite verifyCommitment_run, getSubject_run, Hauth, Hex, Hact.
  - intros id ok why Hroom%Z.ltb_lt.
    by rewrite logAuthentication_run, Hauth, Hroom.
Qed.

Lemma C9_registered_node_is_authorized_witness :
  let st := deploy Scenario.owner in
  let st' := registered 3 "Auth Center" false Scenario.owner st in
  (_nodes st').[3] = mkNode 2 "Auth Center" 3 false true 1000 0
  /\ isAuthorized (_nodes st').[3] = true
  /\ isEnrollmentCenter (_nodes st').[3] = false
  /\ (forall env', msg_sender env' = 3 ->
        onlyAuthorizedNode env' st' = Ok ((), st', [])
        /\ (forall id h, ~ fails_with Unauthorized (verifyCommitment id h env' st'))
        /\ (forall id, ~ fails_with Unauthorized (getSubject id env' st'))
        /\ (forall id ok why,
              ~ fails_with Unauthorized (logAuthentication id ok why env' st'))
        /\ (forall id h,
              (_subjectExists st').[id] = true ->
              isActive (_subjects st').[id] = true ->
              succeeds (verifyCommitment id h env' st')
              /\ succeeds (getSubject id env' st'))
        /\ (forall id ok why,
              _authRecordCount st' < MAX_UINT256 ->
              succeeds (logAuthentication id ok why env' st'))).
Proof.
  intros st st'.
  apply (C9_registered_node_is_authorized st Scenario.owner 3 "Auth Center" false st'
           [NodeRegistered 2 3 "Auth Center" false 1000]).
  reflexivity.
Defined.

(** C10. For any caller that is an authorized enrollment center and any
    existing subject, [deactivateSubject] and [reactivateSubject] succeed,
    and [updateSubject] succeeds when the subject is active and the new hash
    is non-zero.  Nothing is assumed on [enrolledBy]: the calls succeed just
    the same when the subject is recorded as enrolled by any other address
    [who]. *)
Theorem C10_enrolledBy_confers_no_rights st env id :
  canEnroll st (msg_sender env) = true ->
  (_subjectExists st).[id] = true ->
  forall who,
    succeeds (deactivateSubject id env (credited_to who id st))
    /\ succeeds (reactivateSubject id env (credited_to who id st))
    /\ (forall h d cid,
          isActive (_subjects st).[id] = true -> h <> 0 ->
          succeeds (updateSubject id h d cid env (credited_to who id st)))
    /\ succeeds (deactivateSubject id env st)
    /\ succeeds (reactivateSubject id env st)
    /\ (forall h d cid,
          isActive (_subjects st).[id] = true -> h <> 0 ->
          succeeds (updateSubject id h d cid env st)).
Proof.
  intros Hec Hex who.
  assert (Hec' : canEnroll (credited_to who id st) (msg_sender env) = true) by done.
  assert (Hex' : (_subjectExists (credited_to who id st)).[id] = true) by done.
  assert (Hact : isActive (_subjects (credited_to who id st)).[id]
                 = isActive (_subjects st).[id]).
  { unfold credited_to; fields. by rewrite sload_insert_eq. }
  repeat split; try intros h d cid Hon Hh%Z.eqb_neq;
    autorewrite with registry; rewrite ?Hec', ?Hex', ?Hact, ?Hec, ?Hex, ?Hon, ?Hh;
    done.
Qed.

Lemma C10_enrolledBy_confers_no_rights_witness :
  let st := run Scenario.owner
              [(Scenario.owner, RegisterNode 2 "Second EC" true);
               (Scenario.owner, Scenario.subject1)] in
  let env := mkEnv 2 2000 in
  enrolledBy (_subjects st).[11] = 1
  /\ forall who,
    succeeds (deactivateSubject 11 env (credited_to who 11 st))
    /\ succeeds (reactivateSubject 11 env (credited_to who 11 st))
    /\ (forall h d cid,
          isActive (_subjects st).[11] = true -> h <> 0 ->
          succeeds (updateSubject 11 h d cid env (credited_to who 11 st)))
    /\ succeeds (deactivateSubject 11 env st)
    /\ succeeds (reactivateSubject 11 env st)
    /\ (forall h d cid,
          isActive (_subjects st).[11] = true -> h <> 0 ->
          succeeds (updateSubject 11 h d cid env st)).
Proof.
  intros st env. split; [reflexivity |].
  apply (C10_enrolledBy_confers_no_rights st env 11); reflexivity.
Defined.

(** * Further properties of the registry *)

Lemma owner_run env st : View.owner env st = Ok (_owner st, st, []).
Proof. unfold View.owner. by run_body. Qed.

Lemma totalSubjects_run env st : View.totalSubjects env st = Ok (_subjectCount st, st, []).
Proof. unfold View.totalSubjects. by run_body. Qed.

Lemma totalNodes_run env st : View.totalNodes env st = Ok (_nodeCount st, st, []).
Proof. unfold View.totalNodes. by run_body. Qed.

Lemma totalAuthRecords_run env st :
  View.totalAuthRecords env st = Ok (_authRecordCount st, st, []).
Proof. unfold View.totalAuthRecords. by run_body. Qed.

Lemma getNodeEnrollments_run a env st :
  View.getNodeEnrollments a env st =
  if authorized st (msg_sender env) then Ok ((_nodeEnrollments st).[a], st, [])
  else Err (Revert "BiometricRegistry: not authorized node").
Proof. unfold View.getNodeEnrollments. by run_body. Qed.

#[export] Hint Rewrite owner_run totalSubjects_run totalNodes_run totalAuthRecords_run
  getNodeEnrollments_run : registry.

(** A successful [enrollSubject], taken apart. *)
Lemma enrollSubject_Ok id h d cid bt env st st' evs :
  enrollSubject id h d cid bt env st = Ok ((), st', evs) ->
  canEnroll st (msg_sender env) = true /\ id <> 0 /\ h <> 0
  /\ (_subjectExists st).[id] = false
  /\ st' = enrolled id h d cid bt env st
  /\ evs = [SubjectEnrolled id (msg_sender env) bt (block_timestamp env)].
Proof.
  rewrite enrollSubject_run.
  destruct (canEnroll _ _); [| done].
  destruct (id =? 0) eqn:Hid; [done |]. destruct (h =? 0) eqn:Hh; [done |].
  destruct ((_subjectExists st).[id]); [done |].
  destruct (_ <? MAX_UINT256); [| done]. destruct (_ <? MAX_UINT256); [| done].
  intros [= <- <-]. apply Z.eqb_neq in Hid, Hh. done.
Qed.

(** X1. Whatever [enrollSubject] stored can be read back: after a successful
    enrollment, [getSubject] by any authorized reader returns exactly the
    enrolled id, hash, delta, template reference and type together with the
    enrollment timestamp, [verifyCommitment] accepts the enrolled hash, the
    enrolling caller is itself still an authorized reader, and the index of
    the caller ends with the new id. *)
Theorem X1_enroll_then_read_back st env id h d cid bt st' evs env' :
  enrollSubject id h d cid bt env st = Ok ((), st', evs) ->
  authorized st' (msg_sender env') = true ->
  getSubject id env' st' = Ok ((id, h, d, cid, bt, block_timestamp env), st', [])
  /\ verifyCommitment id h env' st' = Ok (true, st', [])
  /\ authorized st' (msg_sender env) = true
  /\ View.getNodeEnrollments (msg_sender env) env' st'
     = Ok ((_nodeEnrollments st).[msg_sender env] ++ [id], st', []).
Proof.
  intros (Hec & _ & _ & _ & -> & _)%enrollSubject_Ok Hauth.
  assert (Hex : (_subjectExists (enrolled id h d cid bt env st)).[id] = true).
  { unfold enrolled; fields. by rewrite sload_insert_eq. }
  assert (Hsub : (_subjects (enrolled id h d cid bt env st)).[id]
                 = mkSubject id h d cid bt (msg_sender env) (block_timestamp env)
                     (block_timestamp env) true).
  { unfold enrolled; fields. by rewrite sload_insert_eq. }
  rewrite getSubject_run, verifyCommitment_run, getNodeEnrollments_run.
  rewrite Hauth, Hex, Hsub. cbn [isActive commitmentHash]. rewrite Z.eqb_refl.
  repeat split; try done.
  - unfold authorized, enrolled; fields. rewrite sload_insert_eq.
    unfold canEnroll in Hec. apply andb_true_iff in Hec as [Hec _].
    by destruct ((_nodes st).[msg_sender env]).
  - unfold enrolled; fields. by rewrite sload_insert_eq.
Qed.

Lemma X1_enroll_then_read_back_witness :
  let st := run Scenario.owner [(Scenario.owner, RegisterNode 3 "Auth Center" false)] in
  let st' := enrolled 11 21 [] "QmTestHash123" IRIS (mkEnv 1 2000) st in
  getSubject 11 Scenario.authCenter st'
    = Ok ((11, 21, [], "QmTestHash123"%string, IRIS, 2000), st', [])
  /\ verifyCommitment 11 21 Scenario.authCenter st' = Ok (true, st', [])
  /\ authorized st' 1 = true
  /\ View.getNodeEnrollments 1 Scenario.authCenter st'
     = Ok ((_nodeEnrollments st).[1] ++ [11], st', []).
Proof.
  intros st st'.
  apply (X1_enroll_then_read_back st (mkEnv 1 2000) 11 21 [] "QmTestHash123" IRIS st'
           [SubjectEnrolled 11 1 IRIS 2000] Scenario.authCenter); reflexivity.
Defined.

(** X2. A successful [updateSubject] replaces the subject's hash, delta and
    template reference and stamps [updatedAt]; the subject's id, type,
    enroller, enrollment time and activity, every other subject and every
    other part of the storage stay as they were.  From then on
    [verifyCommitment] compares against the new hash only. *)
Theorem X2_update_replaces_commitment st env id h d cid st' evs :
  updateSubject id h d cid env st = Ok ((), st', evs) ->
  (_subjects st').[id]
    = with_commitment h d cid (block_timestamp env) (_subjects st).[id]
  /\ commitmentHash (_subjects st').[id] = h
  /\ delta (_subjects st').[id] = d
  /\ templateCID (_subjects st').[id] = cid
  /\ updatedAt (_subjects st').[id] = block_timestamp env
  /\ subjectId (_subjects st').[id] = subjectId (_subjects st).[id]
  /\ biometricType (_subjects st').[id] = biometricType (_subjects st).[id]
  /\ enrolledBy (_subjects st').[id] = enrolledBy (_subjects st).[id]
  /\ enrolledAt (_subjects st').[id] = enrolledAt (_subjects st).[id]
  /\ isActive (_subjects st').[id] = true
  /\ (forall id', id' <> id -> (_subjects st').[id'] = (_subjects st).[id'])
  /\ st' = set_subjects (_subjects st') st
  /\ evs = [SubjectUpdated id (msg_sender env) (block_timestamp env)]
  /\ (forall env' h', authorized st' (msg_sender env') = true ->
        verifyCommitment id h' env' st' = Ok (h =? h', st', [])).
Proof.
  rewrite updateSubject_run.
  destruct (canEnroll _ _); [| done].
  destruct ((_subjectExists st).[id]) eqn:Hex; [| done].
  destruct (isActive _) eqn:Hact; [| done]. destruct (h =? 0); [done |].
  intros [= <- <-].
  assert (Hsub : (_subjects (updated id h d cid env st)).[id]
                 = with_commitment h d cid (block_timestamp env) (_subjects st).[id]).
  { unfold updated; fields. by rewrite sload_insert_eq. }
  rewrite Hsub. cbn [with_commitment commitmentHash delta templateCID updatedAt
                     subjectId biometricType enrolledBy enrolledAt isActive].
  repeat split; try done.
  - intros id' Hne. unfold updated; fields. by rewrite sload_insert_ne.
  - intros env' h' Hauth. rewrite verifyCommitment_run, Hauth, Hsub.
    assert (Hex' : (_subjectExists (updated id h d cid env st)).[id] = true) by done.
    rewrite Hex'. cbn [with_commitment isActive commitmentHash]. by rewrite Hact.
Qed.

Lemma X2_update_replaces_commitment_witness :
  let st := run Scenario.owner Scenario.withAuthCenter in
  let env := mkEnv 1 2000 in
  let st' := updated 11 22 [] "QmNew" env st in
  commitmentHash (_subjects st).[11] = 21
  /\ verifyCommitment 11 21 Scenario.authCenter st' = Ok (false, st', [])
  /\ verifyCommitment 11 22 Scenario.authCenter st' = Ok (true, st', []).
Proof.
  intros st env st'.
  pose proof (X2_update_replaces_commitment st env 11 22 [] "QmNew" st'
                [SubjectUpdated 11 1 2000] eq_refl) as H.
  split; [reflexivity |]. split.
  - apply (proj2 (proj2 (proj2 (proj2 (proj2 (proj2 (proj2 (proj2 (proj2 (proj2
             (proj2 (proj2 (proj2 H))))))))))))). reflexivity.
  - apply (proj2 (proj2 (proj2 (proj2 (proj2 (proj2 (proj2 (proj2 (proj2 (proj2
             (proj2 (proj2 (proj2 H))))))))))))). reflexivity.
Defined.

(** X3. [updateSubject] succeeds exactly when the caller is an authorized
    enrollment center, the subject exists and is active and the new hash is
    non-zero.  Otherwise it is rejected by the first guard that fails, in
    this order: [Unauthorized], [NotFound], [NotActive], [InvalidArgument]
    (so a zero hash on a missing or inactive subject is not reported as an
    invalid argument), and the storage is left as it was. *)
Theorem X3_update_guards st env id h d cid :
  (succeeds (updateSubject id h d cid env st)
   <-> canEnroll st (msg_sender env) = true /\ (_subjectExists st).[id] = true
       /\ isActive (_subjects st).[id] = true /\ h <> 0)
  /\ (canEnroll st (msg_sender env) = false ->
      fails_with Unauthorized (updateSubject id h d cid env st))
  /\ (canEnroll st (msg_sender env) = true -> (_subjectExists st).[id] = false ->
      fails_with NotFound (updateSubject id h d cid env st))
  /\ (canEnroll st (msg_sender env) = true -> (_subjectExists st).[id] = true ->
      isActive (_subjects st).[id] = false ->
      fails_with NotActive (updateSubject id h d cid env st))
  /\ (canEnroll st (msg_sender env) = true -> (_subjectExists st).[id] = true ->
      isActive (_subjects st).[id] = true -> h = 0 ->
      fails_with InvalidArgument (updateSubject id h d cid env st))
  /\ (~ succeeds (updateSubject id h d cid env st) ->
      commit (updateSubject id h d cid) env st = st).
Proof.
  unfold commit. rewrite updateSubject_run.
  destruct (canEnroll _ _); destruct ((_subjectExists st).[id]);
    destruct (isActive _); destruct (Z.eqb_spec h 0) as [Hh | Hh];
    cbn [succeeds fails_with]; repeat split; try done; try tauto;
    try (intros; intuition congruence).
Qed.

Example update_zero_hash_on_inactive_subject :
  let st := commit (deactivateSubject 11) Scenario.owner
              (run Scenario.owner Scenario.withAuthCenter) in
  updateSubject 11 0 [] "" Scenario.owner st
  = Err (Revert "BiometricRegistry: subject not active").
Proof. by vm_compute. Qed.



(** [registerNode] refuses the zero address before it looks at the directory. *)
Lemma registerNode_zero_address st env nm ec :
  canEnroll st (msg_sender env) = true ->
  fails_with InvalidArgument (registerNode 0 nm ec env st).
Proof. intros Hec. by rewrite registerNode_run, Hec. Qed.

(** X5. The audit trail reads back what was logged: after a successful
    [logAuthentication], [totalAuthRecords] has grown by one and
    [getAuthRecord] at that total, by any authorized reader, returns the
    logged subject, the caller as verifier, the reported outcome and reason
    and the block timestamp; subjects and nodes are not touched. *)
Theorem X5_log_then_read_back st env id ok why st' evs env' :
  logAuthentication id ok why env st = Ok ((), st', evs) ->
  authorized st' (msg_sender env') = true ->
  View.totalAuthRecords env' st' = Ok (_authRecordCount st + 1, st', [])
  /\ getAuthRecord (_authRecordCount st + 1) env' st'
     = Ok ((id, msg_sender env, ok, why, block_timestamp env), st', [])
  /\ _subjects st' = _subjects st /\ _subjectExists st' = _subjectExists st
  /\ _nodes st' = _nodes st /\ _owner st' = _owner st
  /\ _subjectCount st' = _subjectCount st /\ _nodeCount st' = _nodeCount st
  /\ evs = [AuthenticationLogged id (msg_sender env) ok (block_timestamp env)].
Proof.
  rewrite logAuthentication_run.
  destruct (authorized st _); [| done]. destruct (_ <? MAX_UINT256); [| done].
  intros [= <- <-] Hauth.
  rewrite totalAuthRecords_run, getAuthRecord_run, Hauth.
  unfold logged; fields. rewrite sload_insert_eq. by repeat split.
Qed.

Lemma X5_log_then_read_back_witness :
  let st := run Scenario.owner Scenario.withAuthCenter in
  let st' := logged 11 true "Verification successful" Scenario.authCenter st in
  View.totalAuthRecords Scenario.owner st' = Ok (1, st', [])
  /\ getAuthRecord 1 Scenario.owner st'
     = Ok ((11, 3, true, "Verification successful"%string, 1000), st', []).
Proof.
  intros st st'.
  destruct (X5_log_then_read_back st Scenario.authCenter 11 true
              "Verification successful" st'
              [AuthenticationLogged 11 3 true 1000] Scenario.owner eq_refl eq_refl)
    as (Ht & Hg & _).
  split; [exact Ht | exact Hg].
Defined.

(** X6. [getAuthRecord] has no bounds check: on every reachable storage an
    authorized reader that asks for an id outside [1 .. totalAuthRecords]
    (zero, a negative number or an id not yet assigned) gets the all-zero
    record back, not an error. *)
Theorem X6_getAuthRecord_out_of_range deployer txs env k :
  wf_history deployer txs = true ->
  authorized (run deployer txs) (msg_sender env) = true ->
  k < 1 \/ _authRecordCount (run deployer txs) < k ->
  getAuthRecord k env (run deployer txs)
  = Ok ((0, 0, false, EmptyString, 0), run deployer txs, []).
Proof.
  intros Hwf Hauth Hk. pose proof (Inv_run deployer txs Hwf) as HI.
  rewrite getAuthRecord_run, Hauth.
  destruct (_authRecords (run deployer txs) !! k) eqn:Hrec.
  - assert (1 <= k <= _authRecordCount (run deployer txs))
      by (apply (inv_auth_dom _ HI); by eexists).
    lia.
  - by rewrite (sload_None _ _ Hrec).
Qed.

Lemma X6_getAuthRecord_out_of_range_witness :
  getAuthRecord 7 Scenario.authCenter (run Scenario.owner Scenario.withAuthCenter)
  = Ok ((0, 0, false, EmptyString, 0), run Scenario.owner Scenario.withAuthCenter, []).
Proof.
  apply (X6_getAuthRecord_out_of_range Scenario.owner Scenario.withAuthCenter
           Scenario.authCenter 7); [reflexivity | reflexivity | right; reflexivity].
Defined.

(** X7. The two role queries predict the two guards.  [isEnrollmentCenter a]
    (which reads the flags in the opposite order) answers [true] exactly
    when a call by [a] passes [onlyEnrollmentCenter], [isAuthorizedNode a]
    answers [true] exactly when a call by [a] passes [onlyAuthorizedNode],
    and whoever is reported as an enrollment center is also reported as an
    authorized node. *)
Theorem X7_role_queries_match_guards st env env' :
  (View.isEnrollmentCenter (msg_sender env) env' st = Ok (true, st, [])
   <-> onlyEnrollmentCenter env st = Ok ((), st, []))
  /\ (View.isEnrollmentCenter (msg_sender env) env' st = Ok (false, st, [])
      <-> fails_with Unauthorized (onlyEnrollmentCenter env st))
  /\ (View.isAuthorizedNode (msg_sender env) env' st = Ok (true, st, [])
      <-> onlyAuthorizedNode env st = Ok ((), st, []))
  /\ (View.isAuthorizedNode (msg_sender env) env' st = Ok (false, st, [])
      <-> fails_with Unauthorized (onlyAuthorizedNode env st))
  /\ (View.isEnrollmentCenter (msg_sender env) env' st = Ok (true, st, []) ->
      View.isAuthorizedNode (msg_sender env) env' st = Ok (true, st, [])).
Proof.
  rewrite isEnrollmentCenter_run, isAuthorizedNode_run.
  unfold onlyEnrollmentCenter, onlyAuthorizedNode. run_body.
  destruct (isAuthorized _), (isEnrollmentCenter _); cbn [andb fails_with];
    repeat split; try done; intros [=].
Qed.

(** X8. Revoking a node with [setNodeAuthorization a false] shuts it out of
    every guarded function at once -- including [setNodeAuthorization]
    itself, so a node that revoked itself cannot undo it -- and is never
    possible for the owner.  Any remaining authorized enrollment center can
    undo the revocation: [setNodeAuthorization a true] puts [isAuthorized]
    back and the node's role, id, name and enrollment count are as before. *)
Theorem X8_revoke_then_restore st env a st1 evs :
  setNodeAuthorization a false env st = Ok ((), st1, evs) ->
  a <> _owner st
  /\ (forall env_a, msg_sender env_a = a ->
        (forall id h d cid bt,
           fails_with Unauthorized (enrollSubject id h d cid bt env_a st1))
        /\ (forall id h, fails_with Unauthorized (verifyCommitment id h env_a st1))
        /\ (forall id, fails_with Unauthorized (getSubject id env_a st1))
        /\ (forall id ok why,
              fails_with Unauthorized (logAuthentication id ok why env_a st1))
        /\ (forall b nm ec, fails_with Unauthorized (registerNode b nm ec env_a st1))
        /\ (forall b c, fails_with Unauthorized (setNodeAuthorization b c env_a st1)))
  /\ (forall env2, canEnroll st1 (msg_sender env2) = true ->
        exists st2,
          setNodeAuthorization a true env2 st1
            = Ok ((), st2, [NodeStatusChanged a true (block_timestamp env2)])
          /\ (_nodes st2).[a] = with_isAuthorized true (_nodes st).[a]
          /\ (forall b, b <> a -> (_nodes st2).[b] = (_nodes st).[b])
          /\ canEnroll st2 a = isEnrollmentCenter (_nodes st).[a]).
Proof.
  rewrite setNodeAuthorization_run.
  destruct (canEnroll st _); [| done].
  destruct (nodeAddress _ =? 0) eqn:Haddr; [done |].
  destruct (a =? _owner st) eqn:Hown; [done |].
  intros [= <- <-]. apply Z.eqb_neq in Hown.
  assert (Hnode : (_nodes (reauthorized a false st)).[a]
                  = with_isAuthorized false (_nodes st).[a]).
  { unfold reauthorized; fields. by rewrite sload_insert_eq. }
  split; [done |]. split.
  - intros env_a <-.
    assert (Hauth : authorized (reauthorized (msg_sender env_a) false st)
                      (msg_sender env_a) = false).
    { unfold authorized. by rewrite Hnode. }
    assert (Hec : canEnroll (reauthorized (msg_sender env_a) false st)
                    (msg_sender env_a) = false).
    { unfold canEnroll. by rewrite Hnode. }
    repeat split; intros; autorewrite with registry; by rewrite ?Hauth, ?Hec.
  - intros env2 Hec2. exists (reauthorized a true (reauthorized a false st)).
    rewrite setNodeAuthorization_run, Hec2, Hnode.
    cbn [nodeAddress with_isAuthorized]. rewrite Haddr.
    assert (Hown' : (a =? _owner (reauthorized a false st)) = false)
      by by apply Z.eqb_neq.
    rewrite Hown'. split; [done |].
    unfold canEnroll, reauthorized; fields. rewrite !sload_insert_eq.
    repeat split; try done.
    intros b Hb. by rewrite !sload_insert_ne.
Qed.

Lemma X8_revoke_then_restore_witness :
  let st := run Scenario.owner [(Scenario.owner, RegisterNode 2 "Second EC" true)] in
  let st1 := reauthorized 2 false st in
  fails_with Unauthorized (setNodeAuthorization 2 true (mkEnv 2 2000) st1)
  /\ exists st2,
       setNodeAuthorization 2 true Scenario.owner st1
         = Ok ((), st2, [NodeStatusChanged 2 true 1000])
       /\ (_nodes st2).[2] = with_isAuthorized true (_nodes st).[2]
       /\ (forall b, b <> 2 -> (_nodes st2).[b] = (_nodes st).[b])
       /\ canEnroll st2 2 = isEnrollmentCenter (_nodes st).[2].
Proof.
  intros st st1.
  destruct (X8_revoke_then_restore st (mkEnv 2 1500) 2 st1
              [NodeStatusChanged 2 false 1500] eq_refl) as (_ & Hout & Hback).
  split.
  - apply (Hout (mkEnv 2 2000) eq_refl).
  - apply (Hback Scenario.owner). reflexivity.
Defined.

(** X9. Deactivation hides a subject without erasing it.  After a successful
    [deactivateSubject], [checkSubjectStatus] reports [(true, false)], the
    authorized readers [getSubject] and [verifyCommitment] and the writer
    [updateSubject] are refused with [NotActive], while the stored hash and
    delta, the subject counter and the enumeration are as before; a second
    [deactivateSubject] is accepted. *)
Theorem X9_deactivated_subject_is_locked st env id st1 evs :
  deactivateSubject id env st = Ok ((), st1, evs) ->
  (forall env', checkSubjectStatus id env' st1 = Ok ((true, false), st1, []))
  /\ (forall env', authorized st1 (msg_sender env') = true ->
        fails_with NotActive (getSubject id env' st1)
        /\ (forall h, fails_with NotActive (verifyCommitment id h env' st1)))
  /\ (forall env' h d cid, canEnroll st1 (msg_sender env') = true ->
        fails_with NotActive (updateSubject id h d cid env' st1))
  /\ (forall env', canEnroll st1 (msg_sender env') = true ->
        succeeds (deactivateSubject id env' st1))
  /\ commitmentHash (_subjects st1).[id] = commitmentHash (_subjects st).[id]
  /\ delta (_subjects st1).[id] = delta (_subjects st).[id]
  /\ _subjectCount st1 = _subjectCount st
  /\ _allSubjectIds st1 = _allSubjectIds st.
Proof.
  rewrite deactivateSubject_run.
  destruct (canEnroll st _); [| done].
  destruct ((_subjectExists st).[id]) eqn:Hex; [| done].
  intros [= <- <-].
  assert (Hsub : (_subjects (toggled false id env st)).[id]
                 = with_updatedAt (block_timestamp env)
                     (with_isActive false (_subjects st).[id])).
  { unfold toggled; fields. by rewrite sload_insert_eq. }
  assert (Hex' : (_subjectExists (toggled false id env st)).[id] = true) by done.
  rewrite Hsub. repeat split; try done; intros;
    autorewrite with registry;
    repeat match goal with H : _ = true |- _ => rewrite H end;
    by rewrite ?Hex', ?Hsub.
Qed.

Lemma X9_deactivated_subject_is_locked_witness :
  let st := run Scenario.owner Scenario.withAuthCenter in
  let st1 := toggled false 11 (mkEnv 1 2000) st in
  checkSubjectStatus 11 Scenario.user1 st1 = Ok ((true, false), st1, [])
  /\ fails_with NotActive (getSubject 11 Scenario.authCenter st1)
  /\ fails_with NotActive (updateSubject 11 22 [] "QmNew" Scenario.owner st1)
  /\ commitmentHash (_subjects st1).[11] = 21.
Proof.
  intros st st1.
  destruct (X9_deactivated_subject_is_locked st (mkEnv 1 2000) 11 st1
              [SubjectDeactivated 11 1 2000] eq_refl)
    as (Hs & Hr & Hu & _ & Hh & _).
  split; [apply Hs |]. split; [apply (Hr Scenario.authCenter); reflexivity |].
  split; [apply (Hu Scenario.owner); reflexivity | exact Hh].
Defined.

(** ** Case analysis on a transaction *)

(** Splits [apply_tx st tx] into the storage each entry point commits; the
    reverted branches, where the storage is [st] itself, are closed when the
    goal is among the hypotheses. *)
Ltac tx_cases tx :=
  let env := fresh "env" in
  let c := fresh "c" in
  destruct tx as [env c]; unfold apply_tx, commit; cbn [fst snd] in *;
  destruct c as [id' h d cid bt | id' h d cid | id' | id' | id' ok why
                | a nm ec | a b | a];
  cbn [dispatch] in *; autorewrite with registry;
  repeat match goal with
         | |- context [if ?b then _ else _] => destruct b eqn:?
         end;
  try done.

Lemma canEnroll_nonzero st a : canEnroll st a = true -> (_nodes st).[a] <> zero.
Proof. unfold canEnroll. intros Hec Hz. by rewrite Hz in Hec. Qed.

Lemma nodeAddress_nonzero st a : nodeAddress (_nodes st).[a] <> 0 -> (_nodes st).[a] <> zero.
Proof. intros Hne Hz. by rewrite Hz in Hne. Qed.

(** ** The subject ledger stays well formed *)

Lemma LedgerInv_same st st' :
  LedgerInv st -> _subjects st' = _subjects st ->
  _subjectExists st' = _subjectExists st ->
  _nodeEnrollments st' = _nodeEnrollments st -> LedgerInv st'.
Proof. intros [? ? ? ? ?] Hs He Hn. split; rewrite ?Hs, ?He, ?Hn; done. Qed.

Lemma LedgerInv_deploy env : LedgerInv (deploy env).
Proof.
  rewrite deploy_run. split; fields; intros *; rewrite ?sload_empty; try done.
  - by intros ?%elem_of_nil.
  - constructor.
Qed.

Lemma LedgerInv_enrolled id h d cid bt env st :
  LedgerInv st -> h <> 0 -> (_subjectExists st).[id] = false ->
  LedgerInv (enrolled id h d cid bt env st).
Proof.
  intros [Hkey Habs Hsound Hcompl Hnd] Hh Hfresh. unfold enrolled. split; fields.
  - intros x. destruct (decide (id = x)) as [<- | Hne].
    + by rewrite !sload_insert_eq.
    + rewrite !sload_insert_ne by done. apply Hkey.
  - intros x. destruct (decide (id = x)) as [<- | Hne].
    + by rewrite !sload_insert_eq.
    + rewrite !sload_insert_ne by done. apply Habs.
  - intros a x. destruct (decide (msg_sender env = a)) as [<- | Hna].
    + rewrite sload_insert_eq, elem_of_app, list_elem_of_singleton.
      intros [Hx | ->].
      * destruct (Hsound _ _ Hx) as [Hex Hby].
        assert (id <> x) by congruence. by rewrite !sload_insert_ne.
      * by rewrite !sload_insert_eq.
    + rewrite sload_insert_ne by done. intros Hx.
      destruct (Hsound _ _ Hx) as [Hex Hby].
      assert (id <> x) by congruence. by rewrite !sload_insert_ne.
  - intros x. destruct (decide (id = x)) as [<- | Hne].
    + rewrite !sload_insert_eq. cbn [enrolledBy]. intros _.
      apply elem_of_app. right. by apply list_elem_of_singleton.
    + rewrite (sload_insert_ne (_subjectExists st)) by done.
      rewrite (sload_insert_ne (_subjects st)) by done.
      intros Hex. specialize (Hcompl x Hex).
      destruct (decide (msg_sender env = enrolledBy (_subjects st).[x])) as [Heq | Hna].
      * rewrite <- Heq in *. rewrite sload_insert_eq. apply elem_of_app. by left.
      * by rewrite sload_insert_ne.
  - intros a. destruct (decide (msg_sender env = a)) as [<- | Hna].
    + rewrite sload_insert_eq. apply NoDup_app. split; [apply Hnd |].
      split; [| apply NoDup_singleton].
      intros x Hx ->%list_elem_of_singleton.
      destruct (Hsound _ _ Hx) as [Hex _]. congruence.
    + rewrite sload_insert_ne by done. apply Hnd.
Qed.

(** Rewriting a subject record in place, keeping its id and enroller. *)
Lemma LedgerInv_rewrite id s st :
  LedgerInv st -> (_subjectExists st).[id] = true ->
  subjectId s = subjectId (_subjects st).[id] ->
  enrolledBy s = enrolledBy (_subjects st).[id] ->
  commitmentHash s <> 0 ->
  LedgerInv (set_subjects (<[id := s]> (_subjects st)) st).
Proof.
  intros [Hkey Habs Hsound Hcompl Hnd] Hex Hid Hby Hh. split; fields.
  - intros x. destruct (decide (id = x)) as [<- | Hne].
    + rewrite sload_insert_eq, Hid. intros _. split; [by apply Hkey | done].
    + rewrite sload_insert_ne by done. apply Hkey.
  - intros x. destruct (decide (id = x)) as [<- | Hne]; [congruence |].
    rewrite sload_insert_ne by done. apply Habs.
  - intros a x Hx. destruct (Hsound _ _ Hx) as [Hex' Hby'].
    split; [done |]. destruct (decide (id = x)) as [<- | Hne].
    + by rewrite sload_insert_eq, Hby.
    + by rewrite sload_insert_ne.
  - intros x Hex'. destruct (decide (id = x)) as [<- | Hne].
    + rewrite sload_insert_eq, Hby. by apply Hcompl.
    + rewrite sload_insert_ne by done. by apply Hcompl.
  - done.
Qed.

Lemma LedgerInv_apply_tx st tx : LedgerInv st -> LedgerInv (apply_tx st tx).
Proof.
  intros HI. tx_cases tx.
  - apply LedgerInv_enrolled; [done | by apply Z.eqb_neq | done].
  - apply LedgerInv_rewrite; try done.
    cbn [with_commitment commitmentHash]. by apply Z.eqb_neq.
  - apply LedgerInv_rewrite; try done. by apply (li_key st HI).
  - apply LedgerInv_rewrite; try done. by apply (li_key st HI).
  - by apply (LedgerInv_same st).
  - by apply (LedgerInv_same st).
  - by apply (LedgerInv_same st).
  - by apply (LedgerInv_same st).
Qed.

Lemma LedgerInv_fold txs : forall st, LedgerInv st -> LedgerInv (fold_left apply_tx txs st).
Proof.
  induction txs as [| tx txs IH]; intros st HI; [done |].
  cbn [fold_left]. by apply IH, LedgerInv_apply_tx.
Qed.

Lemma LedgerInv_run deployer txs : LedgerInv (run deployer txs).
Proof. apply LedgerInv_fold, LedgerInv_deploy. Qed.

(** ** The role directory stays well formed *)

Lemma DirectoryInv_deploy env : DirectoryInv (deploy env).
Proof.
  rewrite deploy_run. split; fields; try done.
  - intros a. destruct (decide (msg_sender env = a)) as [<- | Hne].
    + right. unfold sload. by rewrite lookup_singleton_eq.
    + left. unfold sload. by rewrite lookup_singleton_ne.
  - intros a. destruct (decide (msg_sender env = a)) as [<- | Hne].
    + intros _. by apply list_elem_of_singleton.
    + unfold sload. by rewrite lookup_singleton_ne.
  - intros a. destruct (decide (msg_sender env = a)) as [<- | Hne].
    + unfold sload. by rewrite lookup_singleton_eq.
    + unfold sload. by rewrite lookup_singleton_ne.
Qed.

Lemma DirectoryInv_enrolled id h d cid bt env st :
  DirectoryInv st -> canEnroll st (msg_sender env) = true ->
  DirectoryInv (enrolled id h d cid bt env st).
Proof.
  intros [Haddr Hlist Hcnt Hid] Hec%canEnroll_nonzero. unfold enrolled.
  split; fields; try done.
  - intros a. destruct (decide (msg_sender env = a)) as [<- | Hne].
    + rewrite sload_insert_eq. right. cbn [with_enrollmentCount nodeAddress].
      by destruct (Haddr (msg_sender env)).
    + rewrite sload_insert_ne by done. apply Haddr.
  - intros a. destruct (decide (msg_sender env = a)) as [<- | Hne].
    + intros _. by apply Hlist.
    + rewrite sload_insert_ne by done. apply Hlist.
  - intros a. destruct (decide (msg_sender env = a)) as [<- | Hne].
    + rewrite sload_insert_eq. apply Hid.
    + rewrite sload_insert_ne by done. apply Hid.
Qed.

Lemma DirectoryInv_same st st' :
  DirectoryInv st -> _nodes st' = _nodes st ->
  _allNodeAddresses st' = _allNodeAddresses st -> _nodeCount st' = _nodeCount st ->
  DirectoryInv st'.
Proof. intros [? ? ? ?] Hn Hl Hc. split; rewrite ?Hn, ?Hl, ?Hc; done. Qed.

Lemma DirectoryInv_registered a nm ec env st :
  DirectoryInv st -> DirectoryInv (registered a nm ec env st).
Proof.
  intros [Haddr Hlist Hcnt Hid]. unfold registered. split; fields.
  - intros b. destruct (decide (a = b)) as [<- | Hne].
    + rewrite sload_insert_eq. by right.
    + rewrite sload_insert_ne by done. apply Haddr.
  - intros b. rewrite elem_of_app, list_elem_of_singleton.
    destruct (decide (a = b)) as [<- | Hne]; [by right |].
    rewrite sload_insert_ne by done. intros Hb. left. by apply Hlist.
  - lia.
  - intros b. destruct (decide (a = b)) as [<- | Hne].
    + rewrite sload_insert_eq. cbn [nodeId]. lia.
    + rewrite sload_insert_ne by done. specialize (Hid b). lia.
Qed.

Lemma DirectoryInv_reauthorized a b st :
  DirectoryInv st -> nodeAddress (_nodes st).[a] <> 0 ->
  DirectoryInv (reauthorized a b st).
Proof.
  intros [Haddr Hlist Hcnt Hid] Hne%nodeAddress_nonzero. unfold reauthorized.
  split; fields; try done.
  - intros c. destruct (decide (a = c)) as [<- | Hac].
    + rewrite sload_insert_eq. right. cbn [with_isAuthorized nodeAddress].
      by destruct (Haddr a).
    + rewrite sload_insert_ne by done. apply Haddr.
  - intros c. destruct (decide (a = c)) as [<- | Hac].
    + intros _. by apply Hlist.
    + rewrite sload_insert_ne by done. apply Hlist.
  - intros c. destruct (decide (a = c)) as [<- | Hac].
    + rewrite sload_insert_eq. apply Hid.
    + rewrite sload_insert_ne by done. apply Hid.
Qed.

Lemma DirectoryInv_transferred newOwner st :
  DirectoryInv st -> DirectoryInv (transferred newOwner st).
Proof.
  intros [Haddr Hlist Hcnt Hid]. unfold transferred. split; fields; try done.
  - intros c. destruct (decide (_owner st = c)) as [<- | Hoc].
    + left. by rewrite sload_delete_eq.
    + rewrite sload_delete_ne by done.
      destruct (decide (newOwner = c)) as [<- | Hnc].
      * rewrite sload_insert_eq. by right.
      * rewrite sload_insert_ne by done. apply Haddr.
  - intros c. rewrite elem_of_app, list_elem_of_singleton.
    destruct (decide (_owner st = c)) as [<- | Hoc].
    + by rewrite sload_delete_eq.
    + rewrite sload_delete_ne by done.
      destruct (decide (newOwner = c)) as [<- | Hnc]; [by right |].
      rewrite sload_insert_ne by done. intros Hc. left. by apply Hlist.
  - intros c. destruct (decide (_owner st = c)) as [<- | Hoc].
    + rewrite sload_delete_eq. cbn. lia.
    + rewrite sload_delete_ne by done.
      destruct (decide (newOwner = c)) as [<- | Hnc].
      * rewrite sload_insert_eq. apply Hid.
      * rewrite sload_insert_ne by done. apply Hid.
Qed.

Lemma DirectoryInv_apply_tx st tx : DirectoryInv st -> DirectoryInv (apply_tx st tx).
Proof.
  intros HI. tx_cases tx.
  - by apply DirectoryInv_enrolled.
  - by apply (DirectoryInv_same st).
  - by apply (DirectoryInv_same st).
  - by apply (DirectoryInv_same st).
  - by apply (DirectoryInv_same st).
  - by apply DirectoryInv_registered.
  - apply DirectoryInv_reauthorized; [done | by apply Z.eqb_neq].
  - by apply DirectoryInv_transferred.
Qed.

Lemma DirectoryInv_fold txs : forall st,
  DirectoryInv st -> DirectoryInv (fold_left apply_tx txs st).
Proof.
  induction txs as [| tx txs IH]; intros st HI; [done |].
  cbn [fold_left]. by apply IH, DirectoryInv_apply_tx.
Qed.

Lemma DirectoryInv_run deployer txs : DirectoryInv (run deployer txs).
Proof. apply DirectoryInv_fold, DirectoryInv_deploy. Qed.

(** X10. After any history of calls, a subject record and its existence
    flag agree.  An existing subject's record carries its own id and a
    non-zero commitment hash, so [getSubject id] hands back that very id
    and a non-zero hash; an id that was never enrolled reads as the
    all-zero record, so [checkSubjectStatus] reports [(false, false)] for
    it and never "absent but active". *)
Theorem X10_subject_records_match_flags deployer txs id :
  ((_subjectExists (run deployer txs)).[id] = true ->
     subjectId (_subjects (run deployer txs)).[id] = id
     /\ commitmentHash (_subjects (run deployer txs)).[id] <> 0
     /\ (forall env, authorized (run deployer txs) (msg_sender env) = true ->
           isActive (_subjects (run deployer txs)).[id] = true ->
           exists h d cid bt t,
             getSubject id env (run deployer txs)
               = Ok ((id, h, d, cid, bt, t), run deployer txs, [])
             /\ h <> 0))
  /\ ((_subjectExists (run deployer txs)).[id] = false ->
      (_subjects (run deployer txs)).[id] = zero
      /\ (forall env, checkSubjectStatus id env (run deployer txs)
                      = Ok ((false, false), run deployer txs, []))).
Proof.
  pose proof (LedgerInv_run deployer txs) as HI.
  set (st := run deployer txs) in *. split.
  - intros Hex. destruct (li_key st HI id Hex) as [Hid Hh].
    split; [done |]. split; [done |].
    intros env Hauth Hact. rewrite getSubject_run, Hauth, Hex, Hact.
    exists (commitmentHash (_subjects st).[id]), (delta (_subjects st).[id]),
      (templateCID (_subjects st).[id]), (biometricType (_subjects st).[id]),
      (enrolledAt (_subjects st).[id]).
    cbn zeta. by rewrite Hid.
  - intros Hex. pose proof (li_absent st HI id Hex) as Hz.
    split; [done |]. intros env. by rewrite checkSubjectStatus_run, Hex, Hz.
Qed.

(** X11. The per-node index returned by [getNodeEnrollments] is exact after
    any history: [id] is listed under [a] if and only if the subject exists
    and is recorded as enrolled by [a], and no id is listed twice. *)
Theorem X11_enrollment_index_is_exact deployer txs a id :
  (id ∈ (_nodeEnrollments (run deployer txs)).[a]
   <-> (_subjectExists (run deployer txs)).[id] = true
       /\ enrolledBy (_subjects (run deployer txs)).[id] = a)
  /\ NoDup (_nodeEnrollments (run deployer txs)).[a].
Proof.
  pose proof (LedgerInv_run deployer txs) as HI.
  set (st := run deployer txs) in *. split; [split |].
  - apply (li_index_sound st HI).
  - intros [Hex <-]. by apply (li_index_complete st HI).
  - apply (li_index_nodup st HI).
Qed.

(** X12. After any history, every address that passes an authorization
    guard, and every address with a node record, is in the node enumeration
    and its record carries its own address; every [nodeId] lies between 0
    and [totalNodes], which is at least 1. *)
Theorem X12_nodes_are_enumerated deployer txs a :
  (authorized (run deployer txs) a = true ->
     a ∈ _allNodeAddresses (run deployer txs)
     /\ nodeAddress (_nodes (run deployer txs)).[a] = a)
  /\ (nodeAddress (_nodes (run deployer txs)).[a] <> 0 ->
      a ∈ _allNodeAddresses (run deployer txs)
      /\ nodeAddress (_nodes (run deployer txs)).[a] = a)
  /\ 0 <= nodeId (_nodes (run deployer txs)).[a] <= _nodeCount (run deployer txs)
  /\ 1 <= _nodeCount (run deployer txs).
Proof.
  pose proof (DirectoryInv_run deployer txs) as HI.
  set (st := run deployer txs) in *.
  assert (Hnz : (_nodes st).[a] <> zero ->
                a ∈ _allNodeAddresses st /\ nodeAddress (_nodes st).[a] = a).
  { intros Hne. split; [by apply (di_listed st HI) |].
    by destruct (di_address st HI a). }
  split; [| split; [| split]].
  - intros Hauth. apply Hnz. intros Hz. unfold authorized in Hauth.
    by rewrite Hz in Hauth.
  - intros Hne. by apply Hnz, nodeAddress_nonzero.
  - apply (di_nodeId st HI).
  - apply (di_count st HI).
Qed.

(** The enumeration can name an address that no longer has a record: the
    previous owner stays listed after a transfer. *)
Example stale_entry_after_transfer :
  let st := run Scenario.owner [(Scenario.owner, TransferOwnership 2)] in
  _allNodeAddresses st = [1; 2] /\ _nodes st !! 1 = None /\ authorized st 1 = false.
Proof. by vm_compute. Qed.

(** X13. On every reachable storage [totalSubjects] is the number of
    enumerated subject ids; the enumeration has no duplicates, lists exactly
    the ids whose existence flag is set, holds only non-zero 256-bit ids,
    and no node's [enrollmentCount] exceeds the total.  The counter
    therefore stays below 2^256. *)
Theorem X13_subject_count_matches_enumeration deployer txs :
  wf_history deployer txs = true ->
  View.totalSubjects deployer (run deployer txs)
    = Ok (Z.of_nat (length (_allSubjectIds (run deployer txs))), run deployer txs, [])
  /\ NoDup (_allSubjectIds (run deployer txs))
  /\ (forall id, id ∈ _allSubjectIds (run deployer txs)
                 <-> (_subjectExists (run deployer txs)).[id] = true)
  /\ (forall id, id ∈ _allSubjectIds (run deployer txs) -> 1 <= id < TWO_256)
  /\ (forall a, 0 <= enrollmentCount (_nodes (run deployer txs)).[a]
                  <= _subjectCount (run deployer txs))
  /\ 0 <= _subjectCount (run deployer txs) <= MAX_UINT256.
Proof.
  intros Hwf. pose proof (Inv_run deployer txs Hwf) as HI.
  set (st := run deployer txs) in *.
  rewrite totalSubjects_run, (inv_count st HI).
  split; [done |]. split; [apply (inv_ids_nodup st HI) |].
  split; [apply (inv_ids_exist st HI) |]. split; [apply (inv_ids_range st HI) |].
  split; [rewrite <- (inv_count st HI); apply (inv_enrollments st HI) |].
  pose proof (distinct_keys_bound TWO_256 (_allSubjectIds st)
                (inv_ids_nodup st HI) (inv_ids_range st HI)) as Hb.
  unfold TWO_256, MAX_UINT256 in *. lia.
Qed.

Lemma X13_subject_count_matches_enumeration_witness :
  let deployer := Scenario.owner in
  let txs := Scenario.withAuthCenter ++ [(Scenario.owner, DeactivateSubject 11)] in
  View.totalSubjects deployer (run deployer txs)
    = Ok (Z.of_nat (length (_allSubjectIds (run deployer txs))), run deployer txs, [])
  /\ NoDup (_allSubjectIds (run deployer txs))
  /\ (forall id, id ∈ _allSubjectIds (run deployer txs)
                 <-> (_subjectExists (run deployer txs)).[id] = true)
  /\ (forall id, id ∈ _allSubjectIds (run deployer txs) -> 1 <= id < TWO_256)
  /\ (forall a, 0 <= enrollmentCount (_nodes (run deployer txs)).[a]
                  <= _subjectCount (run deployer txs))
  /\ 0 <= _subjectCount (run deployer txs) <= MAX_UINT256.
Proof.
  intros deployer txs.
  apply (X13_subject_count_matches_enumeration deployer txs). reflexivity.
Defined.

Lemma provenance_apply_tx st tx id :
  (_subjectExists st).[id] = true ->
  provenance (_subjects (apply_tx st tx)).[id] = provenance (_subjects st).[id].
Proof.
  intros Hex. tx_cases tx;
    unfold enrolled, updated, toggled; fields;
    (destruct (decide (id' = id)) as [-> | Hne];
     [rewrite ?sload_insert_eq; try done; congruence | by rewrite sload_insert_ne]).
Qed.

(** X14. Where a subject came from cannot be rewritten: once [id] exists,
    no sequence of calls, by whatever callers, changes its [subjectId],
    [biometricType], [enrolledBy] or [enrolledAt], and the subject never
    stops existing. *)
Theorem X14_provenance_is_immutable more : forall st id,
  (_subjectExists st).[id] = true ->
  provenance (_subjects (fold_left apply_tx more st)).[id]
    = provenance (_subjects st).[id]
  /\ (_subjectExists (fold_left apply_tx more st)).[id] = true.
Proof.
  induction more as [| tx more IH]; intros st id Hex; [done |].
  cbn [fold_left].
  destruct (IH (apply_tx st tx) id) as [Hp He]; [by apply exists_apply_tx |].
  split; [| done]. rewrite Hp. by apply provenance_apply_tx.
Qed.

Lemma X14_provenance_is_immutable_witness :
  let st := run Scenario.owner
              [(Scenario.owner, RegisterNode 2 "Second EC" true);
               (Scenario.owner, Scenario.subject1)] in
  let more := [(mkEnv 2 2000, UpdateSubject 11 22 [] "QmNew");
               (mkEnv 2 2001, DeactivateSubject 11);
               (mkEnv 2 2002, EnrollSubject 11 23 [] "QmOther" IRIS);
               (mkEnv 1 2003, ReactivateSubject 11)] in
  provenance (_subjects (fold_left apply_tx more st)).[11] = (11, FACIAL, 1, 1000)
  /\ (_subjectExists (fold_left apply_tx more st)).[11] = true.
Proof.
  intros st more. apply (X14_provenance_is_immutable more st 11). reflexivity.
Defined.

Lemma grows_apply_tx st tx :
  _allSubjectIds st `prefix_of` _allSubjectIds (apply_tx st tx)
  /\ _allNodeAddresses st `prefix_of` _allNodeAddresses (apply_tx st tx)
  /\ _subjectCount st <= _subjectCount (apply_tx st tx)
  /\ _nodeCount st <= _nodeCount (apply_tx st tx)
  /\ _authRecordCount st <= _authRecordCount (apply_tx st tx).
Proof.
  tx_cases tx;
    unfold enrolled, updated, toggled, logged, registered, reauthorized, transferred;
    fields; repeat split; try done; try lia; try apply prefix_app_r; done.
Qed.

(** X15. Nothing is ever taken back: over any sequence of calls from any
    storage, the subject enumeration and the node enumeration only get
    longer at the end (the earlier entries stay in place) and the three
    counters never go down. *)
Theorem X15_enumerations_and_counters_only_grow more : forall st,
  _allSubjectIds st `prefix_of` _allSubjectIds (fold_left apply_tx more st)
  /\ _allNodeAddresses st `prefix_of` _allNodeAddresses (fold_left apply_tx more st)
  /\ _subjectCount st <= _subjectCount (fold_left apply_tx more st)
  /\ _nodeCount st <= _nodeCount (fold_left apply_tx more st)
  /\ _authRecordCount st <= _authRecordCount (fold_left apply_tx more st).
Proof.
  induction more as [| tx more IH]; intros st; [by repeat split |].
  cbn [fold_left].
  destruct (grows_apply_tx st tx) as (H1 & H2 & H3 & H4 & H5).
  destruct (IH (apply_tx st tx)) as (I1 & I2 & I3 & I4 & I5).
  repeat split; try lia; by etrans.
Qed.

Lemma same_but_audit_log_refl st : same_but_audit_log st st.
Proof. by destruct st. Qed.

(** X16. A caller that is neither an authorized enrollment center nor the
    owner cannot change the registry: whatever it calls, the subjects, the
    nodes, the owner, the enumerations and the subject and node counters
    stay as they were.  The only thing it can add is an audit record, and
    only while it is an authorized node; a caller that is not authorized at
    all leaves the storage exactly as it was. *)
Theorem X16_unprivileged_caller_changes_nothing st tx :
  canEnroll st (msg_sender tx.1) = false ->
  msg_sender tx.1 <> _owner st ->
  same_but_audit_log st (apply_tx st tx)
  /\ _subjects (apply_tx st tx) = _subjects st
  /\ _subjectExists (apply_tx st tx) = _subjectExists st
  /\ _nodes (apply_tx st tx) = _nodes st
  /\ _owner (apply_tx st tx) = _owner st
  /\ (authorized st (msg_sender tx.1) = false -> apply_tx st tx = st).
Proof.
  intros Hec Hown%Z.eqb_neq. destruct tx as [env c].
  unfold apply_tx, commit. cbn [fst snd] in *.
  destruct c as [id' h d cid bt | id' h d cid | id' | id' | id' ok why
                | a nm ec | a b | a];
    cbn [dispatch]; autorewrite with registry; rewrite ?Hec, ?Hown;
    try (split; [apply same_but_audit_log_refl | done]).
  destruct (authorized st (msg_sender env)); [| by split; [apply same_but_audit_log_refl |]].
  destruct (_ <? MAX_UINT256); [| by split; [apply same_but_audit_log_refl |]].
  by repeat split.
Qed.

Lemma X16_unprivileged_caller_changes_nothing_witness :
  let st := run Scenario.owner Scenario.withAuthCenter in
  let tx := (Scenario.authCenter, DeactivateSubject 11) in
  same_but_audit_log st (apply_tx st tx)
  /\ _subjects (apply_tx st tx) = _subjects st
  /\ _subjectExists (apply_tx st tx) = _subjectExists st
  /\ _nodes (apply_tx st tx) = _nodes st
  /\ _owner (apply_tx st tx) = _owner st
  /\ (authorized st (msg_sender tx.1) = false -> apply_tx st tx = st).
Proof.
  intros st tx. apply (X16_unprivileged_caller_changes_nothing st tx);
    [reflexivity | vm_compute; discriminate].
Defined.

(** X17. The owner changes only by the owner's own doing: if a call leaves
    the storage with a different owner, the call was [transferOwnership],
    its sender was the owner, and the new owner is the non-zero address it
    named.  Hence, deployed from a non-zero address, the registry never has
    the zero address as owner. *)
Theorem X17_owner_changes_only_by_transfer deployer txs tx :
  msg_sender deployer <> 0 ->
  _owner (run deployer txs) <> 0
  /\ (_owner (apply_tx (run deployer txs) tx) <> _owner (run deployer txs) ->
      exists newOwner,
        tx.2 = TransferOwnership newOwner
        /\ msg_sender tx.1 = _owner (run deployer txs)
        /\ newOwner <> 0
        /\ _owner (apply_tx (run deployer txs) tx) = newOwner).
Proof.
  intros Hdep.
  assert (Hstep : forall st tx',
            _owner (apply_tx st tx') <> _owner st ->
            exists newOwner,
              tx'.2 = TransferOwnership newOwner /\ msg_sender tx'.1 = _owner st
              /\ newOwner <> 0 /\ _owner (apply_tx st tx') = newOwner).
  { intros st tx'. tx_cases tx'. intros _. exists a.
    repeat split; (by apply Z.eqb_eq) || (by apply Z.eqb_neq) || done. }
  split; [| apply Hstep].
  unfold run. assert (Hinit : _owner (deploy deployer) <> 0) by by rewrite deploy_run.
  revert Hinit. generalize (deploy deployer).
  induction txs as [| tx' txs IH]; intros st Hst; [done |].
  cbn [fold_left]. apply IH.
  destruct (decide (_owner (apply_tx st tx') = _owner st)) as [-> | Hne]; [done |].
  destruct (Hstep st tx' Hne) as (newOwner & _ & _ & Hnz & ->). done.
Qed.

Lemma X17_owner_changes_only_by_transfer_witness :
  let deployer := Scenario.owner in
  let txs := Scenario.withAuthCenter in
  let tx := (Scenario.owner, TransferOwnership 3) in
  _owner (run deployer txs) <> 0
  /\ (_owner (apply_tx (run deployer txs) tx) <> _owner (run deployer txs) ->
      exists newOwner,
        tx.2 = TransferOwnership newOwner
        /\ msg_sender tx.1 = _owner (run deployer txs)
        /\ newOwner <> 0
        /\ _owner (apply_tx (run deployer txs) tx) = newOwner).
Proof.
  intros deployer txs tx.
  apply (X17_owner_changes_only_by_transfer deployer txs tx). vm_compute. discriminate.
Defined.

(** X18. Every successful state-changing call logs exactly one event, the
    one of its own kind carrying the call's key arguments, the caller and
    the block timestamp ([registerNode] reports the new node id,
    [transferOwnership] the previous and the new owner). *)
Theorem X18_one_event_per_call c env st st' evs :
  dispatch c env st = Ok ((), st', evs) -> evs = [event_of c env st].
Proof.
  destruct c as [id' h d cid bt | id' h d cid | id' | id' | id' ok why
                | a nm ec | a b | a];
    cbn [dispatch event_of]; autorewrite with registry;
    repeat match goal with
           | |- context [if ?b then _ else _] => destruct b eqn:?
           end; try done; by intros [= <- <-].
Qed.

Lemma X18_one_event_per_call_witness :
  [NodeRegistered 2 3 "Auth Center" false 1000]
  = [event_of (RegisterNode 3 "Auth Center" false) Scenario.owner (deploy Scenario.owner)].
Proof.
  apply (X18_one_event_per_call (RegisterNode 3 "Auth Center" false) Scenario.owner
           (deploy Scenario.owner)
           (registered 3 "Auth Center" false Scenario.owner (deploy Scenario.owner))).
  reflexivity.
Defined.

(** X19. [transferOwnership] to a different, non-zero address, called by the
    owner, moves the owner's node record to the new address with its
    address field rewritten, whatever record the new address had before;
    the old address is left without a record, stays in the enumeration,
    and is rejected by [enrollSubject]; the new owner has exactly the
    capability the old one had; subjects are untouched.  The freed address
    can afterwards be registered again as a new node. *)
Theorem X19_transfer_to_another_address st env newOwner :
  msg_sender env = _owner st -> newOwner <> 0 -> newOwner <> _owner st ->
  exists st',
    transferOwnership newOwner env st
      = Ok ((), st', [OwnershipTransferred (_owner st) newOwner])
    /\ View.owner env st' = Ok (newOwner, st', [])
    /\ (_nodes st').[newOwner] = with_nodeAddress newOwner (_nodes st).[_owner st]
    /\ (_nodes st').[_owner st] = zero
    /\ (forall b, b <> newOwner -> b <> _owner st -> (_nodes st').[b] = (_nodes st).[b])
    /\ _allNodeAddresses st' = _allNodeAddresses st ++ [newOwner]
    /\ (forall b, b ∈ _allNodeAddresses st -> b ∈ _allNodeAddresses st')
    /\ canEnroll st' newOwner = canEnroll st (_owner st)
    /\ (forall id h d cid bt,
          fails_with Unauthorized (enrollSubject id h d cid bt env st'))
    /\ _subjects st' = _subjects st /\ _subjectExists st' = _subjectExists st
    /\ _nodeCount st' = _nodeCount st
    /\ (forall env2 nm ec,
          canEnroll st' (msg_sender env2) = true -> _owner st <> 0 ->
          _nodeCount st' < MAX_UINT256 ->
          succeeds (registerNode (_owner st) nm ec env2 st')).
Proof.
  intros Hown Hnz Hne.
  destruct (transferOwnership_to_other st env newOwner Hown Hnz Hne)
    as (st' & Hrun & Ho & Hnew & Hold & Hlist & Hcap & Hrej).
  exists st'. rewrite owner_run, Ho.
  assert (Hst : st' = transferred newOwner st).
  { rewrite transferOwnership_run, Hown, Z.eqb_refl in Hrun.
    apply Z.eqb_neq in Hnz. rewrite Hnz in Hrun. congruence. }
  split; [done |]. split; [done |]. split; [done |].
  split; [by rewrite (sload_None _ _ Hold) |].
  split.
  { intros b Hb1 Hb2. rewrite Hst. unfold transferred; fields.
    rewrite sload_delete_ne by done. by rewrite sload_insert_ne. }
  split; [done |]. split.
  { intros b Hb. rewrite Hlist. apply elem_of_app. by left. }
  split; [done |]. split; [done |].
  split; [by rewrite Hst |]. split; [by rewrite Hst |]. split; [by rewrite Hst |].
  intros env2 nm ec Hec2 Hoz Hroom.
  rewrite registerNode_run, Hec2, (sload_None _ _ Hold).
  apply Z.eqb_neq in Hoz. apply Z.ltb_lt in Hroom. cbn [nodeAddress zero Zero_Node].
  by rewrite Hoz, Hroom.
Qed.

Lemma X19_transfer_to_another_address_witness :
  let st := run Scenario.owner Scenario.withAuthCenter in
  exists st',
    transferOwnership 3 (mkEnv 1 2000) st = Ok ((), st', [OwnershipTransferred 1 3])
    /\ View.owner (mkEnv 1 2000) st' = Ok (3, st', [])
    /\ canEnroll st' 3 = true
    /\ (_nodes st').[1] = zero
    /\ _allNodeAddresses st' = [1; 3; 3]
    /\ fails_with Unauthorized (enrollSubject 12 22 [] "cid" FACIAL (mkEnv 1 2000) st')
    /\ succeeds (registerNode 1 "Former owner" false (mkEnv 3 2001) st').
Proof.
  intros st.
  destruct (X19_transfer_to_another_address st (mkEnv 1 2000) 3)
    as (st' & Hrun & Ho & _ & Hold & _ & Hlist & _ & Hcap & Hrej & _ & _ & Hcnt & Hreg);
    [reflexivity | lia | vm_compute; discriminate |].
  exists st'. split; [exact Hrun |]. split; [exact Ho |].
  split; [rewrite Hcap; reflexivity |]. split; [exact Hold |].
  split; [exact Hlist |]. split; [apply Hrej |].
  apply (Hreg (mkEnv 3 2001)).
  - exact (eq_trans Hcap eq_refl).
  - vm_compute. discriminate.
  - rewrite Hcnt. reflexivity.
Defined.

(** X20. [logAuthentication] checks the caller and nothing else: it succeeds
    exactly when the caller is an authorized node and the record counter is
    below 2^256 - 1, for any subject id -- enrolled or not, active or not,
    zero included -- and any outcome and reason.  An unauthorized caller is
    rejected as [Unauthorized]; with the counter at its maximum the checked
    increment panics; either way nothing is stored. *)
Theorem X20_logAuthentication_acceptance st env id ok why :
  (succeeds (logAuthentication id ok why env st)
   <-> authorized st (msg_sender env) = true /\ _authRecordCount st < MAX_UINT256)
  /\ (authorized st (msg_sender env) = false ->
      fails_with Unauthorized (logAuthentication id ok why env st))
  /\ (authorized st (msg_sender env) = true -> MAX_UINT256 <= _authRecordCount st ->
      logAuthentication id ok why env st = Err (Panic 17))
  /\ (~ succeeds (logAuthentication id ok why env st) ->
      commit (logAuthentication id ok why) env st = st).
Proof.
  unfold commit. rewrite logAuthentication_run.
  destruct (authorized st _); destruct (Z.ltb_spec (_authRecordCount st) MAX_UINT256);
    cbn [succeeds fails_with]; repeat split; try done; try tauto; try lia;
    intros; intuition (try done; lia).
Qed.

Example log_for_unknown_subject :
  let st := run Scenario.owner Scenario.withAuthCenter in
  (_subjectExists st).[99] = false
  /\ succeeds (logAuthentication 99 true "no such subject" Scenario.authCenter st)
  /\ succeeds (logAuthentication 0 false "" Scenario.authCenter st).
Proof. by vm_compute. Qed.

(** X21. Reading an address that was never enumerated: after any history,
    an address outside the node enumeration has the all-zero node record,
    so [getNode] returns zeros and an empty name instead of failing,
    [isAuthorizedNode] and [isEnrollmentCenter] answer [false], and
    [setNodeAuthorization] on it by an authorized enrollment center fails
    with [NotFound]. *)
Theorem X21_unlisted_address_reads_as_zero deployer txs a env :
  a ∉ _allNodeAddresses (run deployer txs) ->
  getNode a env (run deployer txs)
    = Ok ((0, EmptyString, false, false, 0, 0), run deployer txs, [])
  /\ View.isAuthorizedNode a env (run deployer txs) = Ok (false, run deployer txs, [])
  /\ View.isEnrollmentCenter a env (run deployer txs) = Ok (false, run deployer txs, [])
  /\ (forall b, canEnroll (run deployer txs) (msg_sender env) = true ->
        fails_with NotFound (setNodeAuthorization a b env (run deployer txs))).
Proof.
  intros Hout. pose proof (DirectoryInv_run deployer txs) as HI.
  set (st := run deployer txs) in *.
  assert (Hz : (_nodes st).[a] = zero).
  { destruct (decide ((_nodes st).[a] = zero)) as [Hz | Hnz]; [done |].
    by apply (di_listed st HI) in Hnz. }
  rewrite getNode_run, isAuthorizedNode_run, isEnrollmentCenter_run, Hz.
  repeat split; try done.
  intros b Hec. by rewrite setNodeAuthorization_run, Hec, Hz.
Qed.

Lemma X21_unlisted_address_reads_as_zero_witness :
  let st := run Scenario.owner Scenario.withAuthCenter in
  getNode 9 Scenario.owner st = Ok ((0, EmptyString, false, false, 0, 0), st, [])
  /\ View.isAuthorizedNode 9 Scenario.owner st = Ok (false, st, [])
  /\ View.isEnrollmentCenter 9 Scenario.owner st = Ok (false, st, [])
  /\ (forall b, canEnroll st (msg_sender Scenario.owner) = true ->
        fails_with NotFound (setNodeAuthorization 9 b Scenario.owner st)).
Proof.
  intros st.
  apply (X21_unlisted_address_reads_as_zero Scenario.owner Scenario.withAuthCenter 9
           Scenario.owner).
  vm_compute. intros Hin. by repeat (apply elem_of_cons in Hin as [? | Hin]; [done |]);
    apply elem_of_nil in Hin.
Defined.
